(** * ably-python realtime core: connection and channel state machines

    A shallow embedding of [ably/realtime/connection.py] and
    [ably/realtime/realtime_channel.py].  Methods become functions that pass
    the object (and what the event loop can observe of it) explicitly;
    coroutines are cut at their [await]s into a synchronous prefix and one
    continuation per suspension point; exceptions are values of [Exc]. *)

From Stdlib Require Import ZArith List String Bool Lia.
Import ListNotations.

(** ** Python preliminaries *)

Module Py.

(** Modelled from the spec: [AblyException] of [ably.util.exceptions], which
    is not among the sources: an error "carrying message, status code, and
    service-specific code".  The positional order is the one [_on_message] and
    [ws_read_loop] use when they build the exception from an error frame
    ([message], [statusCode], [code]). *)
Record AblyException := {
  message : string;
  status_code : Z;
  code : Z
}.

Inductive Exc :=
| ExcAbly (e : AblyException)
| ExcAblyAuth (e : AblyException)
| AttributeError (owner attr : string)
| IndexError (msg : string)
| KeyError (key : string)
| ValueError (msg : string)
| TypeError (msg : string)
| InvalidStateError.

(** How a call ends. *)
Inductive Outcome (A : Type) :=
| Return (a : A)
| Raise (e : Exc).
Arguments Return {A} a.
Arguments Raise {A} e.

Definition bind {A B} (m : Outcome A) (k : A -> Outcome B) : Outcome B :=
  match m with
  | Return a => k a
  | Raise e => Raise e
  end.

Notation "x <- m ;; k" := (bind m (fun x => k))
  (at level 61, m at next level, right associativity).

(** A coroutine either finishes inside the current turn of the event loop or
    is parked at one of its [await]s, named by a program point. *)
Inductive Step (PC A : Type) :=
| Finished (r : Outcome A)
| Suspended (pc : PC).
Arguments Finished {PC A} r.
Arguments Suspended {PC A} pc.

(** The [raise] statement applied to an optional exception object:
    [raise None] is a [TypeError]. *)
Definition py_raise {A} (reason : option AblyException) : Outcome A :=
  match reason with
  | Some e => Raise (ExcAbly e)
  | None => Raise (TypeError "exceptions must derive from BaseException")
  end.

(** Truth value of an optional string ([None] and [''] are false). *)
Definition truthy_str (s : option string) : bool :=
  match s with
  | Some s => negb (String.eqb s "")
  | None => false
  end.

(** The values [subscribe] may receive in [*args]. *)
Inductive PyVal :=
| PyNone
| PyBool (b : bool)
| PyInt (z : Z)
| PyStr (s : string)
| PyFunction (id : nat)
| PyCoroutineFunction (id : nat).

Definition isinstance_str (v : PyVal) : bool :=
  match v with PyStr _ => true | _ => false end.

Definition truthy (v : PyVal) : bool :=
  match v with
  | PyNone => false
  | PyBool b => b
  | PyInt z => negb (Z.eqb z 0)
  | PyStr s => negb (String.eqb s "")
  | PyFunction _ | PyCoroutineFunction _ => true
  end.

(** Modelled from the spec: [is_callable_or_coroutine] of [ably.util.helper],
    which is not among the sources; it "validates the listener is invocable
    (plain callback or asynchronous callback)". *)
Definition is_callable_or_coroutine (v : PyVal) : bool :=
  match v with
  | PyFunction _ | PyCoroutineFunction _ => true
  | _ => false
  end.

(** [args[i]] on a tuple. *)
Definition tuple_get (args : list PyVal) (i : nat) : Outcome PyVal :=
  match nth_error args i with
  | Some v => Return v
  | None => Raise (IndexError "tuple index out of range")
  end.

(** Modelled from the spec: [EventEmitter] of [ably.util.eventemitter], which
    is not among the sources: a registry of listeners keyed by an optional
    event label.  An emitter is represented by what has been registered on it
    and by the emissions handed to it, oldest first. *)
Record EventEmitter (P : Type) := {
  registered : list (option string * PyVal);
  emissions : list (option string * P)
}.
Arguments registered {P} _.
Arguments emissions {P} _.

Definition new_emitter {P} : EventEmitter P :=
  {| registered := []; emissions := [] |}.

Definition _emit {P} (event : option string) (payload : P)
    (em : EventEmitter P) : EventEmitter P :=
  {| registered := registered em;
     emissions := emissions em ++ [(event, payload)] |}.

Definition on {P} (event : option string) (listener : PyVal)
    (em : EventEmitter P) : EventEmitter P :=
  {| registered := registered em ++ [(event, listener)];
     emissions := emissions em |}.

(** Identity of listeners and equality of event labels. *)
Definition PyVal_eqb (a b : PyVal) : bool :=
  match a, b with
  | PyNone, PyNone => true
  | PyBool x, PyBool y => Bool.eqb x y
  | PyInt x, PyInt y => Z.eqb x y
  | PyStr x, PyStr y => String.eqb x y
  | PyFunction x, PyFunction y => Nat.eqb x y
  | PyCoroutineFunction x, PyCoroutineFunction y => Nat.eqb x y
  | _, _ => false
  end.

Definition label_eqb (a b : option string) : bool :=
  match a, b with
  | None, None => true
  | Some x, Some y => String.eqb x y
  | _, _ => false
  end.

(** Modelled from the spec: [EventEmitter.off], not among the sources:
    "called with no arguments removes all listeners; called with only a
    listener removes that listener from every event; called with
    event+listener removes that specific pairing". *)
Definition off {P} (event : option string) (listener : option PyVal)
    (em : EventEmitter P) : EventEmitter P :=
  {| registered :=
       match listener with
       | None => []
       | Some l =>
           filter
             (fun r => negb (PyVal_eqb (snd r) l
                             && match event with
                                | Some _ => label_eqb (fst r) event
                                | None => true
                                end))
             (registered em)
       end;
     emissions := emissions em |}.

End Py.

(** ** connection.py *)

Module Connection.
Import Py.

Inductive ConnectionState :=
| INITIALIZED
| CONNECTING
| CONNECTED
| CLOSING
| CLOSED.

Definition ConnectionState_eqb (a b : ConnectionState) : bool :=
  match a, b with
  | INITIALIZED, INITIALIZED | CONNECTING, CONNECTING | CONNECTED, CONNECTED
  | CLOSING, CLOSING | CLOSED, CLOSED => true
  | _, _ => false
  end.

(** Attribute access [ConnectionState.<name>] on the enum class: the members
    are the five declared above, any other name is an [AttributeError]. *)
Definition ConnectionState_members : list (string * ConnectionState) :=
  [ ("INITIALIZED", INITIALIZED); ("CONNECTING", CONNECTING);
    ("CONNECTED", CONNECTED); ("CLOSING", CLOSING); ("CLOSED", CLOSED) ]%string.

Fixpoint assoc {A} (k : string) (l : list (string * A)) : option A :=
  match l with
  | [] => None
  | (k', v) :: l => if String.eqb k k' then Some v else assoc k l
  end.

Definition ConnectionState_getattr (name : string) : Outcome ConnectionState :=
  match assoc name ConnectionState_members with
  | Some s => Return s
  | None => Raise (AttributeError "ConnectionState" name)
  end.

(** [x in [a, b, ...]] on connection states. *)
Definition state_in (x : ConnectionState) (l : list ConnectionState) : bool :=
  existsb (ConnectionState_eqb x) l.


(** *** RealtimeConnection *)

Definition Future := nat.

Inductive Task :=
| connect_impl_task
| ws_read_loop_task.


(** The object's fields ([__init__]) followed by what it has asked of the
    event loop: the futures it created and the results set on them, the tasks
    it spawned with [asyncio.create_task], and the transports it opened with
    [websockets.connect]. *)
Record RealtimeConnection := {
  state : ConnectionState;
  connected_future : option Future;
  websocket : option nat;
  next_future : Future;
  done_futures : list (Future * Outcome unit);
  tasks : list Task;
  transports : nat
}.

Definition __init__ : RealtimeConnection :=
  {| state := INITIALIZED; connected_future := None; websocket := None;
     next_future := 0; done_futures := []; tasks := []; transports := 0 |}.

Definition set_state (s : ConnectionState) (c : RealtimeConnection) :=
  {| state := s; connected_future := connected_future c;
     websocket := websocket c; next_future := next_future c;
     done_futures := done_futures c; tasks := tasks c;
     transports := transports c |}.

Definition set_connected_future (f : option Future) (c : RealtimeConnection) :=
  {| state := state c; connected_future := f;
     websocket := websocket c; next_future := next_future c;
     done_futures := done_futures c; tasks := tasks c;
     transports := transports c |}.

(** [asyncio.Future()] *)
Definition new_future (c : RealtimeConnection) : Future * RealtimeConnection :=
  (next_future c,
   {| state := state c; connected_future := connected_future c;
      websocket := websocket c; next_future := S (next_future c);
      done_futures := done_futures c; tasks := tasks c;
      transports := transports c |}).

(** [asyncio.create_task(...)] *)
Definition create_task (t : Task) (c : RealtimeConnection) :=
  {| state := state c; connected_future := connected_future c;
     websocket := websocket c; next_future := next_future c;
     done_futures := done_futures c; tasks := tasks c ++ [t];
     transports := transports c |}.

Fixpoint future_lookup (f : Future) (l : list (Future * Outcome unit))
    : option (Outcome unit) :=
  match l with
  | [] => None
  | (g, r) :: l => if Nat.eqb f g then Some r else future_lookup f l
  end.

Definition future_result (f : Future) (c : RealtimeConnection) :=
  future_lookup f (done_futures c).

(** [fut.set_result(None)] and [fut.set_exception(e)]: a future is completed
    once, a second completion is an [InvalidStateError]. *)
Definition complete (f : Future) (r : Outcome unit) (c : RealtimeConnection)
    : Outcome RealtimeConnection :=
  match future_result f c with
  | Some _ => Raise InvalidStateError
  | None =>
      Return {| state := state c; connected_future := connected_future c;
                websocket := websocket c; next_future := next_future c;
                done_futures := (f, r) :: done_futures c; tasks := tasks c;
                transports := transports c |}
  end.

(** The two [await self.__connected_future] of [connect]. *)
Inductive ConnectPC :=
| await_joined (f : Future)
| await_own (f : Future).

Definition awaited (pc : ConnectPC) : Future :=
  match pc with await_joined f | await_own f => f end.

(** What follows each await once the future has a result: the joining branch
    ends there, the branch that started the attempt records [CONNECTED]; an
    exception set on the future is raised at the await. *)
Definition connect_resume (pc : ConnectPC) (r : Outcome unit)
    (c : RealtimeConnection) : RealtimeConnection * Outcome unit :=
  match r with
  | Raise e => (c, Raise e)
  | Return _ =>
      match pc with
      | await_joined _ => (c, Return tt)
      | await_own _ => (set_state CONNECTED c, Return tt)
      end
  end.

(** [await fut]: no suspension when the future is already done. *)
Definition await_future (pc : ConnectPC) (c : RealtimeConnection)
    : RealtimeConnection * Step ConnectPC unit :=
  match future_result (awaited pc) c with
  | Some r => let (c', o) := connect_resume pc r c in (c', Finished o)
  | None => (c, Suspended pc)
  end.

(** [connect], run until it returns or parks at an await. *)
Definition connect (c : RealtimeConnection)
    : RealtimeConnection * Step ConnectPC unit :=
  if ConnectionState_eqb (state c) CONNECTED then (c, Finished (Return tt))
  else if ConnectionState_eqb (state c) CONNECTING then
    match connected_future c with
    | None => (c, Finished (Return tt))
    | Some f => await_future (await_joined f) c
    end
  else
    let c := set_state CONNECTING c in
    let (f, c) := new_future c in
    let c := set_connected_future (Some f) c in
    let c := create_task connect_impl_task c in
    await_future (await_own f) c.

(** [connect_impl] up to [await task]: one transport is opened and kept, the
    read loop is spawned. *)
Definition connect_impl (c : RealtimeConnection) : RealtimeConnection :=
  create_task ws_read_loop_task
    {| state := state c; connected_future := connected_future c;
       websocket := Some (transports c); next_future := next_future c;
       done_futures := done_futures c; tasks := tasks c;
       transports := S (transports c) |}.

(** An inbound frame after [json.loads], as far as the read loop looks. *)
Record ErrorInfo := {
  err_message : string;
  err_statusCode : Z;
  err_code : Z;
  err_nonfatal : PyVal
}.

Record Frame := {
  action : Z;
  error : option ErrorInfo
}.

Definition is_False (v : PyVal) : bool :=
  match v with PyBool false => true | _ => false end.

(** One turn of [ws_read_loop] on a received frame. *)
Definition ws_read_loop (msg : Frame) (c : RealtimeConnection)
    : Outcome RealtimeConnection :=
  c <- (if Z.eqb (action msg) 4 then
          match connected_future c with
          | Some f =>
              c <- complete f (Return tt) c ;;
              Return (set_connected_future None c)
          | None => Return c
          end
        else Return c) ;;
  if Z.eqb (action msg) 9 then
    match error msg with
    | None => Raise (KeyError "error")
    | Some err =>
        if is_False (err_nonfatal err) then
          match connected_future c with
          | Some f =>
              c <- complete f
                     (Raise (ExcAblyAuth
                        {| message := err_message err;
                           status_code := err_statusCode err;
                           code := err_code err |})) c ;;
              Return (set_connected_future None c)
          | None => Return c
          end
        else Return c
    end
  else Return c.

(** The event loop wakes a parked [connect] once its future has a result. *)
Definition wake (s : Step ConnectPC unit) (c : RealtimeConnection)
    : RealtimeConnection * option (Outcome unit) :=
  match s with
  | Finished r => (c, Some r)
  | Suspended pc =>
      match future_result (awaited pc) c with
      | Some r => let (c', o) := connect_resume pc r c in (c', Some o)
      | None => (c, None)
      end
  end.




(** Futures are numbered as they are created: none from [next_future] on has
    a result yet. *)
Definition fresh (c : RealtimeConnection) : Prop :=
  forall f, next_future c <= f -> future_result f c = None.

(** The state [connect] leaves behind when it starts an attempt. *)
Definition started (c : RealtimeConnection) : RealtimeConnection :=
  {| state := CONNECTING;
     connected_future := Some (next_future c);
     websocket := websocket c;
     next_future := S (next_future c);
     done_futures := done_futures c;
     tasks := tasks c ++ [connect_impl_task];
     transports := transports c |}.

(** The frames that settle a connection attempt. *)
Definition is_connected_frame (msg : Frame) : bool := Z.eqb (action msg) 4.

Definition fatal_error_of (msg : Frame) : option ErrorInfo :=
  if Z.eqb (action msg) 9 then
    match error msg with
    | Some err => if is_False (err_nonfatal err) then Some err else None
    | None => None
    end
  else None.

(** The state the read loop leaves behind when it settles the outstanding
    future [f] with [r]. *)
Definition settled (f : Future) (r : Outcome unit) (c : RealtimeConnection) :=
  {| state := state c;
     connected_future := None;
     websocket := websocket c;
     next_future := next_future c;
     done_futures := (f, r) :: done_futures c;
     tasks := tasks c;
     transports := transports c |}.

Definition auth_error (err : ErrorInfo) : Exc :=
  ExcAblyAuth {| message := err_message err;
                 status_code := err_statusCode err;
                 code := err_code err |}.

(** A fatal ERROR frame, and the connection after [connect()] was called once
    on a new connection, [connect_impl] opened the transport and the read
    loop received that frame. *)
Definition fatal_frame : Frame :=
  {| action := 9;
     error := Some {| err_message := "invalid credentials";
                      err_statusCode := 401;
                      err_code := 40101;
                      err_nonfatal := PyBool false |} |}.

Definition after_failed_attempt : RealtimeConnection :=
  {| state := CONNECTING;
     connected_future := None;
     websocket := Some 0;
     next_future := 1;
     done_futures :=
       [(0, Raise (ExcAblyAuth {| message := "invalid credentials";
                                  status_code := 401; code := 40101 |}))];
     tasks := [connect_impl_task; ws_read_loop_task];
     transports := 1 |}.

(** *** close *)

(** The await of [close]. *)
Inductive ClosePC :=
| await_websocket_close (w : nat).

(** [close], run until it returns or parks at [await self.__websocket.close()]. *)
Definition close (c : RealtimeConnection)
    : RealtimeConnection * Step ClosePC unit :=
  let c := set_state CLOSING c in
  match websocket c with
  | Some w => (c, Suspended (await_websocket_close w))
  | None => (set_state CLOSED c, Finished (Return tt))
  end.

(** [close] after its await: an exception of the transport's [close] leaves
    the method there. *)
Definition close_resume (r : Outcome unit) (c : RealtimeConnection)
    : RealtimeConnection * Outcome unit :=
  match r with
  | Return _ => (set_state CLOSED c, Return tt)
  | Raise e => (c, Raise e)
  end.

(** *** Runs of a connection *)

(** What can happen to a connection: calls of [connect] and [close] up to
    their awaits, the spawned [connect_impl], a frame handled by the read
    loop, and the event loop resuming a parked caller. *)
Inductive step : RealtimeConnection -> RealtimeConnection -> Prop :=
| step_connect c : step c (fst (connect c))
| step_connect_impl c : step c (connect_impl c)
| step_frame msg c c' : ws_read_loop msg c = Return c' -> step c c'
| step_wake pc r c :
    future_result (awaited pc) c = Some r ->
    step c (fst (connect_resume pc r c))
| step_close c : step c (fst (close c))
| step_close_resume r c : step c (fst (close_resume r c)).

Inductive reachable : RealtimeConnection -> Prop :=
| reachable_init : reachable __init__
| reachable_step c c' : reachable c -> step c c' -> reachable c'.

(** Calls of [connect] and inbound frames; a frame on which the read loop
    raises leaves the connection as it was. *)
Inductive Event :=
| call_connect
| received (msg : Frame).

Definition after (e : Event) (c : RealtimeConnection) : RealtimeConnection :=
  match e with
  | call_connect => fst (connect c)
  | received msg =>
      match ws_read_loop msg c with
      | Return c' => c'
      | Raise _ => c
      end
  end.

(** [connect()], then [close()] before the transport exists, then the
    spawned [connect_impl], a frame, and the parked caller woken. *)
Definition connect_then_close (msg : Frame) (c : RealtimeConnection)
    : Outcome (RealtimeConnection * Step ClosePC unit * option (Outcome unit)) :=
  let (c, s) := connect c in
  let (c, closed) := close c in
  let c := connect_impl c in
  c <- ws_read_loop msg c ;;
  let (c, o) := wake s c in
  Return (c, closed, o).


End Connection.

(** ** realtime_channel.py *)

Module Channel.
Import Py.

Inductive ChannelState :=
| INITIALIZED
| ATTACHING
| ATTACHED
| DETACHING
| DETACHED
| SUSPENDED
| FAILED.

Definition ChannelState_value (s : ChannelState) : string :=
  match s with
  | INITIALIZED => "initialized"
  | ATTACHING => "attaching"
  | ATTACHED => "attached"
  | DETACHING => "detaching"
  | DETACHED => "detached"
  | SUSPENDED => "suspended"
  | FAILED => "failed"
  end.

Definition ChannelState_eqb (a b : ChannelState) : bool :=
  match a, b with
  | INITIALIZED, INITIALIZED | ATTACHING, ATTACHING | ATTACHED, ATTACHED
  | DETACHING, DETACHING | DETACHED, DETACHED | SUSPENDED, SUSPENDED
  | FAILED, FAILED => true
  | _, _ => false
  end.

(** [x in (a, b, ...)] on channel states. *)
Definition state_in (x : ChannelState) (l : list ChannelState) : bool :=
  existsb (ChannelState_eqb x) l.

Module Flag.
Definition HAS_PRESENCE : Z := Z.shiftl 1 0.
Definition HAS_BACKLOG : Z := Z.shiftl 1 1.
Definition RESUMED : Z := Z.shiftl 1 2.
Definition TRANSIENT : Z := Z.shiftl 1 4.
Definition ATTACH_RESUME : Z := Z.shiftl 1 5.
Definition PRESENCE : Z := Z.shiftl 1 16.
Definition PUBLISH : Z := Z.shiftl 1 17.
Definition SUBSCRIBE : Z := Z.shiftl 1 18.
Definition PRESENCE_SUBSCRIBE : Z := Z.shiftl 1 19.
End Flag.

(** [message_flags & flag > 0]: [&] binds tighter than [>]. *)
Definition has_flag (message_flags flag : Z) : bool :=
  Z.gtb (Z.land message_flags flag) 0.

(** [resumed] is declared [bool] but [_on_message] also stores [None] there. *)
Record ChannelStateChange := {
  previous : ChannelState;
  current : ChannelState;
  resumed : option bool;
  reason : option AblyException
}.

(** Modelled from the spec: [ProtocolMessageAction], imported from
    [ably.realtime.connection] but not declared in the sources; the action
    codes the channel tells apart are ATTACH, ATTACHED, DETACH, DETACHED and
    MESSAGE, "a collaborator-defined enumeration".  [other] stands for any
    other value of the frame's [action], a missing one included. *)
Module ProtocolMessageAction.
Inductive t :=
| ATTACH
| ATTACHED
| DETACH
| DETACHED
| MESSAGE
| other (code : Z).
End ProtocolMessageAction.

(** Modelled from the spec: a decoded data message of [ably.types.message],
    which is not among the sources; [name] is the dispatch key. *)
Record Message := {
  msg_name : option string;
  msg_data : string
}.

Record ErrorInfo := {
  err_message : string;
  err_statusCode : Z;
  err_code : Z
}.

(** A protocol message, inbound (what [_on_message] reads with [msg.get]) or
    outbound (the dicts [_attach_impl] and [_detach_impl] build); an absent key
    is [None], [messages] is the decoded array. *)
Record ProtocolMessage := {
  action : ProtocolMessageAction.t;
  channel : option string;
  channelSerial : option string;
  flags : option Z;
  error : option ErrorInfo;
  messages : list Message
}.

(** Modelled from the spec: [Timer] of [ably.util.helper], which is not among
    the sources: "a timeout guarding an in-flight Attaching/Detaching
    negotiation", armed from its creation until it is cancelled or expires. *)
Record Timer := {
  timer_id : nat;
  timer_timeout : Z
}.

Definition Timer_eqb (a b : Timer) : bool := Nat.eqb (timer_id a) (timer_id b).

(** Modelled from the spec: the realtime client of [ably.realtime.realtime],
    which is not among the sources.  A channel reads three things from it:
    [connection.state], [connection.connection_manager.state] and
    [options.realtime_request_timeout]; it writes through
    [connection.connection_manager.send_protocol_message], recorded in [sent]
    below. *)
Record Realtime := {
  connection_state : Connection.ConnectionState;
  connection_manager_state : Connection.ConnectionState;
  realtime_request_timeout : Z
}.

(** The fields [__init__] sets, the channel's own (inherited) emitter, and what
    the channel has asked of the event loop: the timers currently armed and
    the protocol messages handed to the connection manager, oldest first. *)
Record RealtimeChannel := {
  name : string;
  state : ChannelState;
  message_emitter : EventEmitter Message;
  state_timer : option Timer;
  attach_resume : bool;
  channel_serial : option string;
  internal_state_emitter : EventEmitter ChannelStateChange;
  emitter : EventEmitter ChannelStateChange;
  timers : list Timer;
  next_timer : nat;
  sent : list ProtocolMessage
}.

Definition set_state (v : ChannelState) (c : RealtimeChannel) : RealtimeChannel :=
  {| name := name c;
     state := v;
     message_emitter := message_emitter c;
     state_timer := state_timer c;
     attach_resume := attach_resume c;
     channel_serial := channel_serial c;
     internal_state_emitter := internal_state_emitter c;
     emitter := emitter c;
     timers := timers c;
     next_timer := next_timer c;
     sent := sent c |}.

Definition set_message_emitter (v : EventEmitter Message) (c : RealtimeChannel) : RealtimeChannel :=
  {| name := name c;
     state := state c;
     message_emitter := v;
     state_timer := state_timer c;
     attach_resume := attach_resume c;
     channel_serial := channel_serial c;
     internal_state_emitter := internal_state_emitter c;
     emitter := emitter c;
     timers := timers c;
     next_timer := next_timer c;
     sent := sent c |}.

Definition set_state_timer (v : option Timer) (c : RealtimeChannel) : RealtimeChannel :=
  {| name := name c;
     state := state c;
     message_emitter := message_emitter c;
     state_timer := v;
     attach_resume := attach_resume c;
     channel_serial := channel_serial c;
     internal_state_emitter := internal_state_emitter c;
     emitter := emitter c;
     timers := timers c;
     next_timer := next_timer c;
     sent := sent c |}.

Definition set_attach_resume (v : bool) (c : RealtimeChannel) : RealtimeChannel :=
  {| name := name c;
     state := state c;
     message_emitter := message_emitter c;
     state_timer := state_timer c;
     attach_resume := v;
     channel_serial := channel_serial c;
     internal_state_emitter := internal_state_emitter c;
     emitter := emitter c;
     timers := timers c;
     next_timer := next_timer c;
     sent := sent c |}.

Definition set_channel_serial (v : option string) (c : RealtimeChannel) : RealtimeChannel :=
  {| name := name c;
     state := state c;
     message_emitter := message_emitter c;
     state_timer := state_timer c;
     attach_resume := attach_resume c;
     channel_serial := v;
     internal_state_emitter := internal_state_emitter c;
     emitter := emitter c;
     timers := timers c;
     next_timer := next_timer c;
     sent := sent c |}.

Definition set_internal_state_emitter (v : EventEmitter ChannelStateChange) (c : RealtimeChannel) : RealtimeChannel :=
  {| name := name c;
     state := state c;
     message_emitter := message_emitter c;
     state_timer := state_timer c;
     attach_resume := attach_resume c;
     channel_serial := channel_serial c;
     internal_state_emitter := v;
     emitter := emitter c;
     timers := timers c;
     next_timer := next_timer c;
     sent := sent c |}.

Definition set_emitter (v : EventEmitter ChannelStateChange) (c : RealtimeChannel) : RealtimeChannel :=
  {| name := name c;
     state := state c;
     message_emitter := message_emitter c;
     state_timer := state_timer c;
     attach_resume := attach_resume c;
     channel_serial := channel_serial c;
     internal_state_emitter := internal_state_emitter c;
     emitter := v;
     timers := timers c;
     next_timer := next_timer c;
     sent := sent c |}.

Definition set_timers (v : list Timer) (c : RealtimeChannel) : RealtimeChannel :=
  {| name := name c;
     state := state c;
     message_emitter := message_emitter c;
     state_timer := state_timer c;
     attach_resume := attach_resume c;
     channel_serial := channel_serial c;
     internal_state_emitter := internal_state_emitter c;
     emitter := emitter c;
     timers := v;
     next_timer := next_timer c;
     sent := sent c |}.

Definition set_next_timer (v : nat) (c : RealtimeChannel) : RealtimeChannel :=
  {| name := name c;
     state := state c;
     message_emitter := message_emitter c;
     state_timer := state_timer c;
     attach_resume := attach_resume c;
     channel_serial := channel_serial c;
     internal_state_emitter := internal_state_emitter c;
     emitter := emitter c;
     timers := timers c;
     next_timer := v;
     sent := sent c |}.

Definition set_sent (v : list ProtocolMessage) (c : RealtimeChannel) : RealtimeChannel :=
  {| name := name c;
     state := state c;
     message_emitter := message_emitter c;
     state_timer := state_timer c;
     attach_resume := attach_resume c;
     channel_serial := channel_serial c;
     internal_state_emitter := internal_state_emitter c;
     emitter := emitter c;
     timers := timers c;
     next_timer := next_timer c;
     sent := v |}.

Definition __init__ (name : string) : RealtimeChannel :=
  {| name := name;
     state := INITIALIZED;
     message_emitter := new_emitter;
     state_timer := None;
     attach_resume := false;
     channel_serial := None;
     internal_state_emitter := new_emitter;
     emitter := new_emitter;
     timers := [];
     next_timer := 0;
     sent := [] |}.


(** *** Sending *)

(** [_send_message]: a task is created to send [msg] through the connection
    manager. *)
Definition _send_message (msg : ProtocolMessage) (c : RealtimeChannel) :=
  set_sent (sent c ++ [msg]) c.

Definition _attach_impl (c : RealtimeChannel) : RealtimeChannel :=
  let attach_msg :=
    {| action := ProtocolMessageAction.ATTACH;
       channel := Some (name c);
       channelSerial :=
         if truthy_str (channel_serial c) then channel_serial c else None;
       flags := if attach_resume c then Some Flag.ATTACH_RESUME else None;
       error := None;
       messages := [] |} in
  _send_message attach_msg c.

Definition _detach_impl (c : RealtimeChannel) : RealtimeChannel :=
  let detach_msg :=
    {| action := ProtocolMessageAction.DETACH;
       channel := Some (name c);
       channelSerial := None;
       flags := None;
       error := None;
       messages := [] |} in
  _send_message detach_msg c.

(** *** The pending-state timer *)

(** [Timer.cancel]: the timer is no longer armed. *)
Definition cancel (t : Timer) (c : RealtimeChannel) : RealtimeChannel :=
  set_timers (filter (fun u => negb (Timer_eqb u t)) (timers c)) c.

Definition __start_state_timer (rt : Realtime) (c : RealtimeChannel) :=
  match state_timer c with
  | Some _ => c
  | None =>
      let t := {| timer_id := next_timer c;
                  timer_timeout := realtime_request_timeout rt |} in
      let c := set_next_timer (S (next_timer c)) (set_timers (timers c ++ [t]) c) in
      set_state_timer (Some t) c
  end.

Definition __clear_state_timer (c : RealtimeChannel) : RealtimeChannel :=
  match state_timer c with
  | Some t => set_state_timer None (cancel t c)
  | None => c
  end.

(** *** State changes *)

Definition _notify_state (st : ChannelState) (reason : option AblyException)
    (resumed : option bool) (c : RealtimeChannel) : RealtimeChannel :=
  let c := __clear_state_timer c in
  if ChannelState_eqb st (state c) then c
  else
    let c := if ChannelState_eqb st ATTACHED then set_attach_resume true c else c in
    let c := if state_in st [DETACHING; FAILED] then set_attach_resume false c else c in
    let c := if state_in st [DETACHED; SUSPENDED; FAILED]
             then set_channel_serial None c else c in
    let state_change :=
      {| previous := state c; current := st;
         resumed := resumed; reason := reason |} in
    let c := set_state st c in
    let c := set_emitter
               (_emit (Some (ChannelState_value st)) state_change (emitter c)) c in
    set_internal_state_emitter
      (_emit (Some (ChannelState_value st)) state_change (internal_state_emitter c)) c.

Definition _check_pending_state (rt : Realtime) (c : RealtimeChannel) :=
  let connection_state := connection_manager_state rt in
  if negb (Connection.ConnectionState_eqb connection_state Connection.CONNECTED)
  then c
  else if ChannelState_eqb (state c) ATTACHING then
    _attach_impl (__start_state_timer rt c)
  else if ChannelState_eqb (state c) DETACHING then
    _detach_impl (__start_state_timer rt c)
  else c.

(** [reason=None, resumed=False] are [_notify_state]'s defaults. *)
Definition _request_state (rt : Realtime) (st : ChannelState)
    (c : RealtimeChannel) : RealtimeChannel :=
  _check_pending_state rt (_notify_state st None (Some false) c).

Definition __timeout_pending_state (rt : Realtime) (c : RealtimeChannel) :=
  if ChannelState_eqb (state c) ATTACHING then
    _notify_state SUSPENDED
      (Some {| message := "Channel attach timed out";
               status_code := 408; code := 90007 |})
      (Some false) c
  else if ChannelState_eqb (state c) DETACHING then
    _notify_state ATTACHED
      (Some {| message := "Channel detach timed out";
               status_code := 408; code := 90007 |})
      (Some false) c
  else _check_pending_state rt c.

(** The closure [on_timeout] that [__start_state_timer] hands to its timer. *)
Definition on_timeout (rt : Realtime) (c : RealtimeChannel) : RealtimeChannel :=
  __timeout_pending_state rt (set_state_timer None c).

(** The event loop fires an armed timer: the timer has expired (it is armed
    no more) and its callback runs. *)
Definition expire (t : Timer) (c : RealtimeChannel) : RealtimeChannel :=
  set_timers (filter (fun u => negb (Timer_eqb u t)) (timers c)) c.

Definition fire (rt : Realtime) (t : Timer) (c : RealtimeChannel) :=
  on_timeout rt (expire t c).

(** *** Inbound protocol messages *)

Definition truthy_resumed (r : option bool) : bool :=
  match r with Some b => b | None => false end.

Definition _on_message (msg : ProtocolMessage) (c : RealtimeChannel)
    : RealtimeChannel :=
  let c := if truthy_str (channelSerial msg)
           then set_channel_serial (channelSerial msg) c else c in
  match action msg with
  | ProtocolMessageAction.ATTACHED =>
      let exception :=
        match error msg with
        | Some err => Some {| message := err_message err;
                              status_code := err_statusCode err;
                              code := err_code err |}
        | None => None
        end in
      let resumed :=
        match flags msg with
        | Some f => if Z.eqb f 0 then None else Some (has_flag f Flag.RESUMED)
        | None => None
        end in
      if ChannelState_eqb (state c) ATTACHED then
        if negb (truthy_resumed resumed) then
          let state_change :=
            {| previous := state c; current := ATTACHED;
               resumed := resumed; reason := exception |} in
          set_emitter (_emit (Some "update"%string) state_change (emitter c)) c
        else c
      else if ChannelState_eqb (state c) ATTACHING then
        _notify_state ATTACHED None resumed c
      else c
  | ProtocolMessageAction.DETACHED =>
      if ChannelState_eqb (state c) DETACHING then
        _notify_state DETACHED None (Some false) c
      else c
  | ProtocolMessageAction.MESSAGE =>
      fold_left
        (fun c m => set_message_emitter
                      (_emit (msg_name m) m (message_emitter c)) c)
        (messages msg) c
  | _ => c
  end.

(** *** attach, detach, subscribe *)

(** The awaits of the three coroutines. *)
Inductive PC :=
| await_connect       (* detach: [await self.__realtime.connect()] *)
| await_state_change. (* [await self.__internal_state_emitter.once_async()] *)

(** The error of an attach or detach refused for the connection state
    ([code=90001, status_code=400]).  Its message interpolates the channel
    state, rendered here by the member's value; no property below depends on
    that text. *)
Definition unable_to (what : string) (st : ChannelState) : AblyException :=
  {| message := String.append "Unable to "
                  (String.append what
                     (String.append "; channel state = " (ChannelState_value st)));
     status_code := 400;
     code := 90001 |}.

Definition getattrs (names : list string)
    : Outcome (list Connection.ConnectionState) :=
  fold_right
    (fun n acc =>
       bind (Connection.ConnectionState_getattr n)
            (fun s => bind acc (fun l => Return (s :: l))))
    (Return []) names.


(** [attach], run until it returns, raises or parks at its await. *)
Definition attach (rt : Realtime) (c : RealtimeChannel)
    : RealtimeChannel * Step PC unit :=
  if ChannelState_eqb (state c) ATTACHED then (c, Finished (Return tt))
  else
    match getattrs ["CONNECTING"; "CONNECTED"; "DISCONNECTED"]%string with
    | Raise e => (c, Finished (Raise e))
    | Return allowed =>
        if negb (Connection.state_in (connection_state rt) allowed) then
          (c, Finished (Raise (ExcAbly (unable_to "attach" (state c)))))
        else
          let c := if negb (ChannelState_eqb (state c) ATTACHING)
                   then _request_state rt ATTACHING c else c in
          (c, Suspended await_state_change)
    end.

(** [attach] after its await, given the state change it was woken with. *)
Definition attach_after_await (state_change : ChannelStateChange)
    : Outcome unit :=
  if state_in (current state_change) [SUSPENDED; FAILED]
  then py_raise (reason state_change)
  else Return tt.

(** [detach], run until it returns, raises or parks at its first await. *)
Definition detach (rt : Realtime) (c : RealtimeChannel)
    : RealtimeChannel * Step PC unit :=
  match getattrs ["CLOSING"; "FAILED"]%string with
  | Raise e => (c, Finished (Raise e))
  | Return refused =>
      if Connection.state_in (connection_state rt) refused then
        (c, Finished (Raise (ExcAbly (unable_to "detach" (state c)))))
      else if state_in (state c) [INITIALIZED; DETACHED] then
        (c, Finished (Return tt))
      else if ChannelState_eqb (state c) SUSPENDED then
        (_notify_state DETACHED None (Some false) c, Finished (Return tt))
      else if ChannelState_eqb (state c) FAILED then
        (c, Finished (Raise (ExcAbly
           {| message := "Unable to detach; channel state = failed";
              status_code := 90001; code := 400 |})))
      else
        let c := _request_state rt DETACHING c in
        if Connection.ConnectionState_eqb (connection_state rt) Connection.CONNECTING
        then (c, Suspended await_connect)
        else (c, Suspended await_state_change)
  end.

(** [detach] after [await self.__realtime.connect()]. *)
Definition detach_after_connect (r : Outcome unit) : Step PC unit :=
  match r with
  | Raise e => Finished (Raise e)
  | Return _ => Suspended await_state_change
  end.

(** [detach] after its last await, given the state change it was woken
    with. *)
Definition detach_after_await (state_change : ChannelStateChange)
    : Outcome unit :=
  let new_state := current state_change in
  if ChannelState_eqb new_state DETACHED then Return tt
  else if ChannelState_eqb new_state ATTACHING then
    Raise (ExcAbly
      {| message := "Detach request superseded by a subsequent attach request";
         status_code := 90000; code := 409 |})
  else py_raise (reason state_change).

(** The argument parsing of [subscribe]: the event and the listener. *)
Definition subscribe_args (args : list PyVal) : Outcome (option string * PyVal) :=
  a0 <- tuple_get args 0 ;;
  match a0 with
  | PyStr event =>
      a1 <- tuple_get args 1 ;;
      if negb (truthy a1) then
        Raise (ValueError "channel.subscribe called without listener")
      else
        a1 <- tuple_get args 1 ;;
        if negb (is_callable_or_coroutine a1) then
          Raise (ValueError "subscribe listener must be function or coroutine function")
        else
          listener <- tuple_get args 1 ;;
          Return (Some event, listener)
  | _ =>
      a0 <- tuple_get args 0 ;;
      if is_callable_or_coroutine a0 then
        listener <- tuple_get args 0 ;;
        Return (None, listener)
      else Raise (ValueError "invalid subscribe arguments")
  end.

(** [subscribe], run until it raises or [attach] returns, raises or parks;
    what [attach] then yields is what [subscribe] yields. *)
Definition subscribe (rt : Realtime) (args : list PyVal) (c : RealtimeChannel)
    : RealtimeChannel * Step PC unit :=
  match subscribe_args args with
  | Raise e => (c, Finished (Raise e))
  | Return (event, listener) =>
      attach rt (set_message_emitter (on event listener (message_emitter c)) c)
  end.

(** *** Runs of a channel *)

(** What can happen to a channel: calls of its public coroutines, and the
    calls the connection layer and the event loop make into it. *)
Inductive step : RealtimeChannel -> RealtimeChannel -> Prop :=
| step_attach rt c : step c (fst (attach rt c))
| step_detach rt c : step c (fst (detach rt c))
| step_subscribe rt args c : step c (fst (subscribe rt args c))
| step_on_message msg c : step c (_on_message msg c)
| step_request_state rt st c : step c (_request_state rt st c)
| step_notify_state st reason resumed c :
    step c (_notify_state st reason resumed c)
| step_check_pending_state rt c : step c (_check_pending_state rt c)
| step_timer rt t c : In t (timers c) -> step c (fire rt t c).

Inductive reachable (name : string) : RealtimeChannel -> Prop :=
| reachable_init : reachable name (__init__ name)
| reachable_step c c' : reachable name c -> step c c' -> reachable name c'.

(** What reaches a channel without anyone asking for an attach or a detach:
    inbound frames, re-evaluations of the pending state on connection
    changes, and timer expiries. *)
Inductive Unrequested :=
| inbound (msg : ProtocolMessage)
| connection_changed (rt : Realtime)
| timer_expired (rt : Realtime) (t : Timer).

Definition unrequested (e : Unrequested) (c : RealtimeChannel) :=
  match e with
  | inbound msg => _on_message msg c
  | connection_changed rt => _check_pending_state rt c
  | timer_expired rt t => fire rt t c
  end.

Definition run (es : list Unrequested) (c : RealtimeChannel) :=
  fold_left (fun c e => unrequested e c) es c.

(** *** Vocabulary of the properties *)

(** The armed timers are exactly the one the channel holds, if any. *)
Definition timer_inv (c : RealtimeChannel) : Prop :=
  timers c = match state_timer c with Some t => [t] | None => [] end.

(** The resume flag after entering [st]. *)
Definition attach_resume_after (st : ChannelState) (before : bool) : bool :=
  if ChannelState_eqb st ATTACHED then true
  else if state_in st [DETACHING; FAILED] then false
  else before.


(** The first statement of [_on_message]: a non-empty serial is stored. *)
Definition store_serial (msg : ProtocolMessage) (c : RealtimeChannel) :=
  if truthy_str (channelSerial msg)
  then set_channel_serial (channelSerial msg) c else c.

(** The locals [resumed] and [exception] that [_on_message] computes from an
    ATTACHED frame. *)
Definition resumed_of (msg : ProtocolMessage) : option bool :=
  match flags msg with
  | Some f => if Z.eqb f 0 then None else Some (has_flag f Flag.RESUMED)
  | None => None
  end.

Definition exception_of (msg : ProtocolMessage) : option AblyException :=
  match error msg with
  | Some err => Some {| message := err_message err;
                        status_code := err_statusCode err;
                        code := err_code err |}
  | None => None
  end.

(** The RESUMED bit (bit 2) of the frame's flags, cleared when the frame has
    no flags. *)
Definition resumed_flag_set (msg : ProtocolMessage) : bool :=
  match flags msg with
  | Some f => Z.testbit f 2
  | None => false
  end.

(** Two clients, and a channel whose attach timed out. *)
Definition connected : Realtime :=
  {| connection_state := Connection.CONNECTED;
     connection_manager_state := Connection.CONNECTED;
     realtime_request_timeout := 10000 |}.

Definition closed : Realtime :=
  {| connection_state := Connection.CLOSED;
     connection_manager_state := Connection.CLOSED;
     realtime_request_timeout := 10000 |}.


(** *** unsubscribe *)

(** The argument parsing of [unsubscribe]: the event and the listener, both
    [None] when called without arguments. *)
Definition unsubscribe_args (args : list PyVal)
    : Outcome (option string * option PyVal) :=
  if Nat.eqb (List.length args) 0 then Return (None, None)
  else
    a0 <- tuple_get args 0 ;;
    match a0 with
    | PyStr event =>
        a1 <- tuple_get args 1 ;;
        if negb (truthy a1) then
          Raise (ValueError "channel.unsubscribe called without listener")
        else
          a1 <- tuple_get args 1 ;;
          if negb (is_callable_or_coroutine a1) then
            Raise (ValueError
                     "unsubscribe listener must be a function or coroutine function")
          else
            listener <- tuple_get args 1 ;;
            Return (Some event, Some listener)
    | _ =>
        a0 <- tuple_get args 0 ;;
        if is_callable_or_coroutine a0 then
          listener <- tuple_get args 0 ;;
          Return (None, Some listener)
        else Raise (ValueError "invalid unsubscribe arguments")
    end.

(** [unsubscribe]: the three calls of [off] are [off None None] (RTL8c),
    [off (Some event) (Some listener)] (RTL8b) and [off None (Some listener)]
    (RTL8a). *)
Definition unsubscribe (args : list PyVal) (c : RealtimeChannel)
    : RealtimeChannel * Outcome unit :=
  match unsubscribe_args args with
  | Raise e => (c, Raise e)
  | Return (event, listener) =>
      (set_message_emitter (off event listener (message_emitter c)) c,
       Return tt)
  end.

(** *** Vocabulary of the run properties *)

(** The label under which a state change is emitted. *)
Definition state_label (st : ChannelState) : option string :=
  Some (ChannelState_value st).

(** A log of state changes is linked from [from]: each entry starts where the
    one before ended, changes the state, and is labelled by the state it
    enters; the result is the state the log ends in. *)
Fixpoint linked (from : ChannelState)
    (log : list (option string * ChannelStateChange)) : option ChannelState :=
  match log with
  | [] => Some from
  | (label, change) :: log =>
      if ChannelState_eqb (previous change) from
         && negb (ChannelState_eqb (current change) from)
         && label_eqb label (state_label (current change))
      then linked (current change) log
      else None
  end.

Definition is_update (e : option string * ChannelStateChange) : bool :=
  label_eqb (fst e) (Some "update"%string).

(** An [update] entry: from Attached to Attached. *)
Definition update_ok (e : option string * ChannelStateChange) : bool :=
  ChannelState_eqb (previous (snd e)) ATTACHED
  && ChannelState_eqb (current (snd e)) ATTACHED.

(** An outbound frame of the channel called [name]: an ATTACH or a DETACH for
    that channel, without error or payload. *)
Definition own_frame (name : string) (m : ProtocolMessage) : Prop :=
  channel m = Some name /\
  (action m = ProtocolMessageAction.ATTACH \/
   action m = ProtocolMessageAction.DETACH) /\
  error m = None /\ messages m = [].

(** The RESUME request of an outbound frame. *)
Definition asks_resume (m : ProtocolMessage) : bool :=
  match flags m with
  | Some f => has_flag f Flag.ATTACH_RESUME
  | None => false
  end.

Definition pending (st : ChannelState) : bool :=
  state_in st [ATTACHING; DETACHING].

(** A client whose connection manager is not connected yet. *)
Definition connecting : Realtime :=
  {| connection_state := Connection.CONNECTING;
     connection_manager_state := Connection.CONNECTING;
     realtime_request_timeout := 10000 |}.

(** The primitive changes every step is made of: a change that leaves the
    core of the channel alone (it may store a serial, register on or emit to
    the message emitter, or emit an [update] while Attached), a
    [_notify_state], a [_check_pending_state], and the expiry of a timer. *)
Definition light (c c' : RealtimeChannel) : Prop :=
  name c' = name c /\ state c' = state c /\
  state_timer c' = state_timer c /\ timers c' = timers c /\
  attach_resume c' = attach_resume c /\ sent c' = sent c /\
  internal_state_emitter c' = internal_state_emitter c /\
  (emissions (emitter c') = emissions (emitter c) \/
   exists change,
     state c = ATTACHED /\
     previous change = ATTACHED /\ current change = ATTACHED /\
     emissions (emitter c')
       = emissions (emitter c) ++ [(Some "update"%string, change)]).

Inductive built (c : RealtimeChannel) : RealtimeChannel -> Prop :=
| built_refl : built c c
| built_light c1 c2 : built c c1 -> light c1 c2 -> built c c2
| built_notify c1 st reason resumed :
    built c c1 -> built c (_notify_state st reason resumed c1)
| built_check c1 rt :
    built c c1 -> built c (_check_pending_state rt c1)
| built_expire c1 t :
    built c c1 -> built c (set_state_timer None (expire t c1)).

(** What holds of every channel named [nm] along its runs. *)
Record kept (nm : string) (c : RealtimeChannel) : Prop := {
  kept_name : name c = nm;
  kept_linked :
    linked INITIALIZED (emissions (internal_state_emitter c)) = Some (state c);
  kept_public :
    filter (fun e => negb (is_update e)) (emissions (emitter c))
    = emissions (internal_state_emitter c);
  kept_updates :
    forallb update_ok (filter is_update (emissions (emitter c))) = true;
  kept_timer : state_timer c <> None -> pending (state c) = true;
  kept_attached : state c = ATTACHED -> attach_resume c = true;
  kept_detaching :
    state c = DETACHING \/ state c = FAILED -> attach_resume c = false;
  kept_sent : Forall (own_frame nm) (sent c)
}.

End Channel.

(** * Properties *)

(** ** connect *)

Module ConnectionProperties.
Import Py Connection.

Lemma ConnectionState_eqb_eq a b : ConnectionState_eqb a b = true <-> a = b.
Proof. destruct a, b; simpl; split; congruence. Qed.

Lemma ConnectionState_eqb_neq a b : ConnectionState_eqb a b = false <-> a <> b.
Proof. destruct a, b; simpl; split; congruence. Qed.

(** The names the channel looks up on the enum class: three resolve, two do
    not. *)
Lemma getattr_members :
  ConnectionState_getattr "CONNECTING" = Return CONNECTING /\
  ConnectionState_getattr "CONNECTED" = Return CONNECTED /\
  ConnectionState_getattr "CLOSING" = Return CLOSING /\
  ConnectionState_getattr "DISCONNECTED"
    = Raise (AttributeError "ConnectionState" "DISCONNECTED") /\
  ConnectionState_getattr "FAILED"
    = Raise (AttributeError "ConnectionState" "FAILED").
Proof. repeat split. Qed.

Lemma fresh_init : fresh __init__.
Proof. intros f _. reflexivity. Qed.



Lemma connect_connecting_no_future c :
  state c = CONNECTING -> connected_future c = None ->
  connect c = (c, Finished (Return tt)).
Proof. intros Hs Hf. unfold connect. rewrite Hs, Hf. reflexivity. Qed.

Lemma connect_starts c :
  state c <> CONNECTED -> state c <> CONNECTING -> fresh c ->
  connect c = (started c, Suspended (await_own (next_future c))).
Proof.
  intros H1 H2 Hfr. unfold connect.
  apply ConnectionState_eqb_neq in H1, H2. rewrite H1, H2.
  unfold await_future, new_future, set_connected_future, create_task,
    set_state, future_result. simpl.
  specialize (Hfr (next_future c) (Nat.le_refl _)). unfold future_result in Hfr.
  rewrite Hfr. reflexivity.
Qed.


Lemma wake_own_success c f :
  future_result f c = Some (Return tt) ->
  wake (Suspended (await_own f)) c = (set_state CONNECTED c, Some (Return tt)).
Proof. intros H. unfold wake. simpl. rewrite H. reflexivity. Qed.

Lemma wake_joined c f r :
  future_result f c = Some r ->
  wake (Suspended (await_joined f)) c = (c, Some r).
Proof.
  intros H. unfold wake. simpl. rewrite H. destruct r as [[]|e]; reflexivity.
Qed.

Lemma wake_own_failure c f e :
  future_result f c = Some (Raise e) ->
  wake (Suspended (await_own f)) c = (c, Some (Raise e)).
Proof. intros H. unfold wake. simpl. rewrite H. reflexivity. Qed.

Lemma ws_read_loop_connected msg c f :
  action msg = 4%Z -> connected_future c = Some f -> future_result f c = None ->
  ws_read_loop msg c = Return (settled f (Return tt) c).
Proof.
  intros Ha Hf Hr. unfold ws_read_loop, complete. rewrite Ha, Hf, Hr.
  reflexivity.
Qed.






Lemma await_future_pending pc c :
  future_result (awaited pc) c = None -> await_future pc c = (c, Suspended pc).
Proof. intros H. unfold await_future. rewrite H. reflexivity. Qed.




End ConnectionProperties.

(** ** The channel *)

Module ChannelProperties.
Import Py Channel.

Lemma ChannelState_eqb_eq a b : ChannelState_eqb a b = true <-> a = b.
Proof. destruct a, b; simpl; split; congruence. Qed.

Lemma ChannelState_eqb_neq a b : ChannelState_eqb a b = false <-> a <> b.
Proof. destruct a, b; simpl; split; congruence. Qed.

Lemma ChannelState_eqb_refl a : ChannelState_eqb a a = true.
Proof. now destruct a. Qed.

Lemma Timer_eqb_refl t : Timer_eqb t t = true.
Proof. apply Nat.eqb_refl. Qed.

(** *** The timer primitives *)

Lemma clear_state_timer_frame c :
  let c' := __clear_state_timer c in
  state c' = state c /\ attach_resume c' = attach_resume c /\
  channel_serial c' = channel_serial c /\ emitter c' = emitter c /\
  internal_state_emitter c' = internal_state_emitter c /\
  message_emitter c' = message_emitter c /\ sent c' = sent c /\
  name c' = name c /\ state_timer c' = None.
Proof.
  unfold __clear_state_timer. destruct (state_timer c) eqn:E; simpl;
    repeat split; assumption.
Qed.

Lemma clear_state_timer_disarms c :
  timer_inv c -> timers (__clear_state_timer c) = [].
Proof.
  unfold timer_inv, __clear_state_timer. intros H.
  destruct (state_timer c) as [t|]; simpl; rewrite H; simpl.
  - now rewrite Timer_eqb_refl.
  - reflexivity.
Qed.

Lemma start_state_timer_frame rt c :
  let c' := __start_state_timer rt c in
  state c' = state c /\ attach_resume c' = attach_resume c /\
  channel_serial c' = channel_serial c /\ emitter c' = emitter c /\
  internal_state_emitter c' = internal_state_emitter c /\
  message_emitter c' = message_emitter c /\ sent c' = sent c /\
  name c' = name c.
Proof.
  unfold __start_state_timer. destruct (state_timer c); simpl;
    repeat split; reflexivity.
Qed.

Lemma start_state_timer_inv rt c :
  timer_inv c -> timer_inv (__start_state_timer rt c).
Proof.
  unfold timer_inv, __start_state_timer. intros H.
  destruct (state_timer c) eqn:E; simpl.
  - now rewrite E.
  - now rewrite H.
Qed.

Lemma start_state_timer_arms rt c :
  exists t, state_timer (__start_state_timer rt c) = Some t /\
            (state_timer c = None ->
             t = {| timer_id := next_timer c;
                    timer_timeout := realtime_request_timeout rt |} /\
             timers (__start_state_timer rt c) = timers c ++ [t]) /\
            (forall u, state_timer c = Some u ->
             t = u /\ timers (__start_state_timer rt c) = timers c).
Proof.
  unfold __start_state_timer. destruct (state_timer c) as [u|] eqn:E; simpl.
  - exists u. rewrite E. repeat split; congruence.
  - eexists. split; [reflexivity|]. split; [now split|discriminate].
Qed.

(** *** [_notify_state] *)

(** The record [_notify_state] builds when it changes the state. *)
Lemma notify_state_changes st reason resumed c :
  st <> state c ->
  let c' := _notify_state st reason resumed c in
  let state_change := {| previous := state c; current := st;
                         resumed := resumed; reason := reason |} in
  state c' = st /\
  emissions (emitter c')
    = emissions (emitter c) ++ [(Some (ChannelState_value st), state_change)] /\
  emissions (internal_state_emitter c')
    = emissions (internal_state_emitter c)
      ++ [(Some (ChannelState_value st), state_change)] /\
  attach_resume c' = attach_resume_after st (attach_resume c) /\
  channel_serial c'
    = (if state_in st [DETACHED; SUSPENDED; FAILED] then None
       else channel_serial c) /\
  state_timer c' = None /\
  timers c' = timers (__clear_state_timer c) /\
  sent c' = sent c /\ name c' = name c /\
  message_emitter c' = message_emitter c.
Proof.
  intros Hne. cbv zeta.
  destruct (clear_state_timer_frame c)
    as (Hs & Har & Hcs & Hem & Hin & Hme & Hse & Hna & Hti).
  cbv zeta in *.
  unfold _notify_state, attach_resume_after. rewrite Hs.
  apply ChannelState_eqb_neq in Hne. rewrite Hne.
  destruct st; simpl;
    rewrite ?Hs, ?Har, ?Hcs, ?Hem, ?Hin, ?Hme, ?Hse, ?Hna, ?Hti;
    repeat split; reflexivity.
Qed.

Lemma notify_state_same st reason resumed c :
  st = state c -> _notify_state st reason resumed c = __clear_state_timer c.
Proof.
  intros ->. unfold _notify_state.
  destruct (clear_state_timer_frame c) as (Hs & _). cbv zeta in Hs.
  rewrite Hs, ChannelState_eqb_refl. reflexivity.
Qed.

Lemma notify_state_state st reason resumed c :
  state (_notify_state st reason resumed c) = st.
Proof.
  destruct (ChannelState_eqb st (state c)) eqn:E.
  - apply ChannelState_eqb_eq in E. rewrite notify_state_same by assumption.
    destruct (clear_state_timer_frame c) as (Hs & _). cbv zeta in Hs. congruence.
  - apply ChannelState_eqb_neq in E.
    now destruct (notify_state_changes st reason resumed c E) as (H & _).
Qed.

Lemma notify_state_sent st reason resumed c :
  sent (_notify_state st reason resumed c) = sent c.
Proof.
  destruct (ChannelState_eqb st (state c)) eqn:E.
  - apply ChannelState_eqb_eq in E. rewrite notify_state_same by assumption.
    apply clear_state_timer_frame.
  - apply ChannelState_eqb_neq in E.
    apply (notify_state_changes st reason resumed c E).
Qed.

Lemma notify_state_timer st reason resumed c :
  state_timer (_notify_state st reason resumed c) = None /\
  timers (_notify_state st reason resumed c) = timers (__clear_state_timer c).
Proof.
  destruct (ChannelState_eqb st (state c)) eqn:E.
  - apply ChannelState_eqb_eq in E. rewrite notify_state_same by assumption.
    split; [apply clear_state_timer_frame|reflexivity].
  - apply ChannelState_eqb_neq in E.
    destruct (notify_state_changes st reason resumed c E)
      as (_ & _ & _ & _ & _ & H1 & H2 & _).
    now split.
Qed.



(** C1: a call of [_notify_state] with a target other than the current state
    builds one [ChannelStateChange], whose [previous] is the state before the
    call and whose [current] is the target, appends it once to the channel's
    own (public) emitter and once to the internal state emitter, and sets the
    state; with the target equal to the current state nothing is emitted and
    the state stays. *)
Theorem notify_state_emits_exactly_once st reason resumed c :
  let c' := _notify_state st reason resumed c in
  let state_change := {| previous := state c; current := st;
                         resumed := resumed; reason := reason |} in
  (st <> state c ->
     emissions (emitter c')
       = emissions (emitter c)
         ++ [(Some (ChannelState_value st), state_change)] /\
     emissions (internal_state_emitter c')
       = emissions (internal_state_emitter c)
         ++ [(Some (ChannelState_value st), state_change)] /\
     state c' = st) /\
  (st = state c ->
     emissions (emitter c') = emissions (emitter c) /\
     emissions (internal_state_emitter c')
       = emissions (internal_state_emitter c) /\
     state c' = state c).
Proof.
  cbv zeta. split.
  - intros Hne.
    destruct (notify_state_changes st reason resumed c Hne)
      as (Hs & He & Hi & _).
    repeat split; assumption.
  - intros He. rewrite notify_state_same by assumption.
    destruct (clear_state_timer_frame c) as (Hs & _ & _ & Hem & Hin & _).
    cbv zeta in *. rewrite Hs, Hem, Hin. repeat split; reflexivity.
Qed.

Lemma notify_state_emits_exactly_once_witness :
  let c' := _notify_state ATTACHING None (Some false) (__init__ "news") in
  let state_change := {| previous := INITIALIZED; current := ATTACHING;
                         resumed := Some false; reason := None |} in
  emissions (emitter c') = [(Some "attaching"%string, state_change)] /\
  emissions (internal_state_emitter c')
    = [(Some "attaching"%string, state_change)] /\
  state c' = ATTACHING.
Proof.
  apply (proj1 (notify_state_emits_exactly_once
                  ATTACHING None (Some false) (__init__ "news"))).
  discriminate.
Defined.

(** *** [_check_pending_state] *)

Lemma send_message_frame msg c :
  let c' := _send_message msg c in
  state c' = state c /\ attach_resume c' = attach_resume c /\
  channel_serial c' = channel_serial c /\ emitter c' = emitter c /\
  internal_state_emitter c' = internal_state_emitter c /\
  message_emitter c' = message_emitter c /\
  state_timer c' = state_timer c /\ timers c' = timers c /\
  sent c' = sent c ++ [msg].
Proof. cbv zeta. unfold _send_message. simpl. repeat split. Qed.

(** The ATTACH and DETACH frames a channel sends. *)
Lemma attach_impl_sent c :
  sent (_attach_impl c)
  = sent c ++ [ {| action := ProtocolMessageAction.ATTACH;
                   channel := Some (name c);
                   channelSerial := if truthy_str (channel_serial c)
                                    then channel_serial c else None;
                   flags := if attach_resume c then Some 32%Z else None;
                   error := None;
                   messages := [] |} ].
Proof. reflexivity. Qed.

Lemma detach_impl_sent c :
  sent (_detach_impl c)
  = sent c ++ [ {| action := ProtocolMessageAction.DETACH;
                   channel := Some (name c);
                   channelSerial := None;
                   flags := None;
                   error := None;
                   messages := [] |} ].
Proof. reflexivity. Qed.

Lemma check_pending_state_not_connected rt c :
  connection_manager_state rt <> Connection.CONNECTED ->
  _check_pending_state rt c = c.
Proof.
  intros H. unfold _check_pending_state.
  apply ConnectionProperties.ConnectionState_eqb_neq in H. now rewrite H.
Qed.

Lemma check_pending_state_idle rt c :
  state c <> ATTACHING -> state c <> DETACHING ->
  _check_pending_state rt c = c.
Proof.
  intros H1 H2. unfold _check_pending_state.
  apply ChannelState_eqb_neq in H1, H2. rewrite H1, H2.
  now destruct (negb _).
Qed.

Lemma check_pending_state_frame rt c :
  let c' := _check_pending_state rt c in
  state c' = state c /\ attach_resume c' = attach_resume c /\
  channel_serial c' = channel_serial c /\ emitter c' = emitter c /\
  internal_state_emitter c' = internal_state_emitter c /\
  message_emitter c' = message_emitter c /\
  (timer_inv c -> timer_inv c').
Proof.
  cbv zeta. unfold _check_pending_state.
  destruct (start_state_timer_frame rt c) as (Hs & Ha & Hc & He & Hi & Hm & _).
  cbv zeta in *.
  pose proof (start_state_timer_inv rt c) as Hinv.
  destruct (negb _); [repeat split; auto|].
  destruct (ChannelState_eqb (state c) ATTACHING);
    [|destruct (ChannelState_eqb (state c) DETACHING)];
    unfold _attach_impl, _detach_impl, _send_message, timer_inv in *; simpl;
    repeat split; auto.
Qed.

(** C7: [_check_pending_state] by cases.  Connection (manager) not Connected:
    it returns, the channel is as before: no frame sent, no timer armed.
    Connected and Attaching: [__start_state_timer] then [_attach_impl] run, so
    a timer is held afterwards (the one already held, or else a new one with
    the configured timeout) and one ATTACH frame is appended to what was
    sent.  Connected and Detaching: the same with one DETACH frame.
    Connected, any other channel state: nothing is sent, the channel is as
    before. *)
Theorem check_pending_state_cases rt c :
  let c' := _check_pending_state rt c in
  (connection_manager_state rt <> Connection.CONNECTED -> c' = c) /\
  (connection_manager_state rt = Connection.CONNECTED ->
     (state c = ATTACHING ->
        c' = _attach_impl (__start_state_timer rt c) /\
        (exists t, state_timer c' = Some t /\
                   (state_timer c = None ->
                    timer_timeout t = realtime_request_timeout rt /\
                    timers c' = timers c ++ [t]) /\
                   (forall u, state_timer c = Some u ->
                    t = u /\ timers c' = timers c)) /\
        sent c'
        = sent c ++ [ {| action := ProtocolMessageAction.ATTACH;
                         channel := Some (name c);
                         channelSerial := if truthy_str (channel_serial c)
                                          then channel_serial c else None;
                         flags := if attach_resume c then Some 32%Z else None;
                         error := None;
                         messages := [] |} ]) /\
     (state c = DETACHING ->
        c' = _detach_impl (__start_state_timer rt c) /\
        (exists t, state_timer c' = Some t /\
                   (state_timer c = None ->
                    timer_timeout t = realtime_request_timeout rt /\
                    timers c' = timers c ++ [t]) /\
                   (forall u, state_timer c = Some u ->
                    t = u /\ timers c' = timers c)) /\
        sent c'
        = sent c ++ [ {| action := ProtocolMessageAction.DETACH;
                         channel := Some (name c);
                         channelSerial := None;
                         flags := None;
                         error := None;
                         messages := [] |} ]) /\
     (state c <> ATTACHING -> state c <> DETACHING -> c' = c)).
Proof.
  cbv zeta. split; [apply check_pending_state_not_connected|].
  intros Hc.
  destruct (start_state_timer_frame rt c)
    as (Hs & Ha & Hcs & _ & _ & _ & Hse & Hn).
  cbv zeta in *.
  destruct (start_state_timer_arms rt c) as (t & Ht & Hnew & Hold).
  assert (Hnew' : state_timer c = None ->
                  timer_timeout t = realtime_request_timeout rt /\
                  timers (__start_state_timer rt c) = timers c ++ [t]).
  { intros E. destruct (Hnew E) as (-> & Hti). now split. }
  split; [|split].
  - intros E. unfold _check_pending_state. rewrite Hc, E. simpl.
    split; [reflexivity|]. split.
    + exists t. split; [exact Ht|]. split; [exact Hnew'|exact Hold].
    + rewrite Hse, Hn, Hcs, Ha. reflexivity.
  - intros E. unfold _check_pending_state. rewrite Hc, E. simpl.
    split; [reflexivity|]. split.
    + exists t. split; [exact Ht|]. split; [exact Hnew'|exact Hold].
    + rewrite Hse, Hn. reflexivity.
  - apply check_pending_state_idle.
Qed.

Lemma check_pending_state_cases_witness :
  let rt := {| connection_state := Connection.CONNECTED;
               connection_manager_state := Connection.CONNECTED;
               realtime_request_timeout := 10000 |} in
  let c := _notify_state ATTACHING None (Some false) (__init__ "news") in
  sent (_check_pending_state rt c)
  = [ {| action := ProtocolMessageAction.ATTACH;
         channel := Some "news"%string;
         channelSerial := None;
         flags := None;
         error := None;
         messages := [] |} ].
Proof.
  intros rt c.
  exact (proj2 (proj2 (proj1 (proj2 (check_pending_state_cases rt c)
                                eq_refl) eq_refl))).
Defined.

(** *** [_on_message] *)

Lemma emit_messages_frame ms : forall c,
  let c' := fold_left
              (fun c m => set_message_emitter
                            (_emit (msg_name m) m (message_emitter c)) c)
              ms c in
  state c' = state c /\ attach_resume c' = attach_resume c /\
  channel_serial c' = channel_serial c /\ emitter c' = emitter c /\
  internal_state_emitter c' = internal_state_emitter c /\
  state_timer c' = state_timer c /\ timers c' = timers c /\
  sent c' = sent c.
Proof.
  induction ms as [|m ms IH]; intros c; cbv zeta; simpl.
  - repeat split.
  - specialize (IH (set_message_emitter
                      (_emit (msg_name m) m (message_emitter c)) c)).
    cbv zeta in IH. simpl in IH. exact IH.
Qed.

Lemma store_serial_frame msg c :
  let c' := store_serial msg c in
  state c' = state c /\ attach_resume c' = attach_resume c /\
  emitter c' = emitter c /\
  internal_state_emitter c' = internal_state_emitter c /\
  state_timer c' = state_timer c /\ timers c' = timers c /\
  sent c' = sent c.
Proof.
  cbv zeta. unfold store_serial. destruct (truthy_str _); simpl; repeat split.
Qed.

Lemma on_message_sent msg c : sent (_on_message msg c) = sent c.
Proof.
  unfold _on_message. fold (store_serial msg c).
  destruct (store_serial_frame msg c) as (_ & _ & _ & _ & _ & _ & Hse).
  cbv zeta in Hse.
  destruct (action msg); try assumption.
  - destruct (ChannelState_eqb _ ATTACHED).
    + destruct (negb _); [simpl|]; assumption.
    + destruct (ChannelState_eqb _ ATTACHING); [|assumption].
      now rewrite notify_state_sent.
  - destruct (ChannelState_eqb _ DETACHING); [|assumption].
    now rewrite notify_state_sent.
  - destruct (emit_messages_frame (messages msg) (store_serial msg c))
      as (_ & _ & _ & _ & _ & _ & _ & H).
    cbv zeta in H. congruence.
Qed.

(** Outside Attaching and Detaching an inbound frame leaves the state and
    the timer alone. *)
Lemma on_message_idle msg c :
  state c <> ATTACHING -> state c <> DETACHING ->
  let c' := _on_message msg c in
  state c' = state c /\ state_timer c' = state_timer c /\
  timers c' = timers c /\ attach_resume c' = attach_resume c /\
  internal_state_emitter c' = internal_state_emitter c.
Proof.
  intros H1 H2. cbv zeta. unfold _on_message. fold (store_serial msg c).
  destruct (store_serial_frame msg c) as (Hs & Ha & _ & Hi & Ht & Hti & _).
  cbv zeta in *.
  apply ChannelState_eqb_neq in H1, H2.
  destruct (action msg); auto.
  - rewrite Hs, H1.
    destruct (ChannelState_eqb _ ATTACHED); auto.
    destruct (negb _); simpl; auto.
  - rewrite Hs, H2. auto.
  - destruct (emit_messages_frame (messages msg) (store_serial msg c))
      as (Hs' & Ha' & _ & _ & Hi' & Ht' & Hti' & _).
    cbv zeta in *. repeat split; congruence.
Qed.






Lemma land_4 f : Z.land f 4 = if Z.testbit f 2 then 4%Z else 0%Z.
Proof.
  apply Z.bits_inj'. intros n Hn. rewrite Z.land_spec.
  change 4%Z with (2 ^ 2)%Z. rewrite Z.pow2_bits_eqb by lia.
  destruct (Z.eqb_spec 2 n) as [<-|Hne].
  - destruct (Z.testbit f 2); reflexivity.
  - rewrite andb_false_r. destruct (Z.testbit f 2).
    + rewrite Z.pow2_bits_false by lia. reflexivity.
    + now rewrite Z.bits_0.
Qed.

Lemma has_flag_resumed f : has_flag f Flag.RESUMED = Z.testbit f 2.
Proof.
  unfold has_flag. change Flag.RESUMED with 4%Z. rewrite land_4.
  now destruct (Z.testbit f 2).
Qed.

Lemma truthy_resumed_of msg :
  truthy_resumed (resumed_of msg) = resumed_flag_set msg.
Proof.
  unfold resumed_of, resumed_flag_set. destruct (flags msg) as [f|]; auto.
  destruct (Z.eqb_spec f 0) as [->|]; simpl; auto using has_flag_resumed.
Qed.

Lemma on_message_attached msg c :
  action msg = ProtocolMessageAction.ATTACHED ->
  _on_message msg c
  = let c := store_serial msg c in
    if ChannelState_eqb (state c) ATTACHED then
      if negb (resumed_flag_set msg) then
        set_emitter
          (_emit (Some "update"%string)
             {| previous := state c; current := ATTACHED;
                resumed := resumed_of msg; reason := exception_of msg |}
             (emitter c)) c
      else c
    else if ChannelState_eqb (state c) ATTACHING then
      _notify_state ATTACHED None (resumed_of msg) c
    else c.
Proof.
  intros Ha. unfold _on_message. rewrite Ha. fold (store_serial msg c).
  fold (resumed_of msg). fold (exception_of msg).
  now rewrite truthy_resumed_of.
Qed.

(** C9: an inbound ATTACHED frame.  Channel Attached and RESUMED bit cleared:
    one [update] event goes to the public emitter, carrying a state change
    with [previous] and [current] both Attached; the state stays Attached and
    the internal state emitter gets nothing.  Channel Attaching: the channel
    becomes Attached and the state change emitted carries the frame's
    resumed value.  Any other channel state: the state and both emitters are
    as before. *)
Theorem on_message_attached_frame msg c :
  action msg = ProtocolMessageAction.ATTACHED ->
  let c' := _on_message msg c in
  (state c = ATTACHED -> resumed_flag_set msg = false ->
     state c' = ATTACHED /\
     emissions (emitter c')
       = emissions (emitter c)
         ++ [(Some "update"%string,
              {| previous := ATTACHED; current := ATTACHED;
                 resumed := resumed_of msg; reason := exception_of msg |})] /\
     internal_state_emitter c' = internal_state_emitter c) /\
  (state c = ATTACHING ->
     state c' = ATTACHED /\
     emissions (emitter c')
       = emissions (emitter c)
         ++ [(Some "attached"%string,
              {| previous := ATTACHING; current := ATTACHED;
                 resumed := resumed_of msg; reason := None |})] /\
     emissions (internal_state_emitter c')
       = emissions (internal_state_emitter c)
         ++ [(Some "attached"%string,
              {| previous := ATTACHING; current := ATTACHED;
                 resumed := resumed_of msg; reason := None |})] /\
     truthy_resumed (resumed_of msg) = resumed_flag_set msg) /\
  (state c <> ATTACHED -> state c <> ATTACHING ->
     state c' = state c /\ emitter c' = emitter c /\
     internal_state_emitter c' = internal_state_emitter c).
Proof.
  intros Ha. cbv zeta. rewrite (on_message_attached msg c Ha). cbv zeta.
  destruct (store_serial_frame msg c) as (Hs & _ & He & Hi & _).
  cbv zeta in *. rewrite Hs. split; [|split].
  - intros E Hr. rewrite E, Hr. simpl. rewrite Hs, He, Hi, E.
    repeat split; reflexivity.
  - intros E. rewrite E. simpl.
    assert (Hne : ATTACHED <> state (store_serial msg c)) by congruence.
    destruct (notify_state_changes ATTACHED None (resumed_of msg) _ Hne)
      as (H1 & H2 & H3 & _).
    cbv zeta in *. rewrite H1, H2, H3, Hs, He, Hi, E.
    repeat split; try reflexivity. apply truthy_resumed_of.
  - intros H1 H2. apply ChannelState_eqb_neq in H1, H2. rewrite H1, H2.
    repeat split; assumption.
Qed.

Lemma on_message_attached_frame_witness :
  let msg := {| action := ProtocolMessageAction.ATTACHED;
                channel := Some "news"%string;
                channelSerial := None;
                flags := Some 3%Z;
                error := None;
                messages := [] |} in
  let c := _notify_state ATTACHED None (Some false) (__init__ "news") in
  let c' := _on_message msg c in
  state c' = ATTACHED /\
  emissions (emitter c')
    = emissions (emitter c)
      ++ [(Some "update"%string,
           {| previous := ATTACHED; current := ATTACHED;
              resumed := Some false; reason := None |})] /\
  internal_state_emitter c' = internal_state_emitter c.
Proof.
  intros msg c.
  exact (proj1 (on_message_attached_frame msg c eq_refl) eq_refl eq_refl).
Defined.

(** *** Timer expiry *)

Lemma on_timeout_idle rt c :
  state c <> ATTACHING -> state c <> DETACHING ->
  on_timeout rt c = _check_pending_state rt (set_state_timer None c) /\
  on_timeout rt c = set_state_timer None c.
Proof.
  intros H1 H2. unfold on_timeout, __timeout_pending_state.
  change (state (set_state_timer None c)) with (state c).
  pose proof H1 as H1'. pose proof H2 as H2'.
  apply ChannelState_eqb_neq in H1', H2'. rewrite H1', H2'.
  split; [reflexivity|]. now apply check_pending_state_idle.
Qed.

Lemma unrequested_idle e c :
  state c <> ATTACHING -> state c <> DETACHING ->
  state (unrequested e c) = state c /\ sent (unrequested e c) = sent c.
Proof.
  intros H1 H2. destruct e as [msg|rt|rt t]; simpl.
  - split; [now apply on_message_idle|apply on_message_sent].
  - now rewrite check_pending_state_idle.
  - unfold fire.
    assert (Hs : state (expire t c) = state c) by reflexivity.
    destruct (on_timeout_idle rt (expire t c)) as (_ & ->); try congruence.
    split; reflexivity.
Qed.

Lemma run_idle es : forall c,
  state c <> ATTACHING -> state c <> DETACHING ->
  state (run es c) = state c /\ sent (run es c) = sent c.
Proof.
  induction es as [|e es IH]; intros c H1 H2; simpl.
  - split; reflexivity.
  - destruct (unrequested_idle e c H1 H2) as (Hs & Hse).
    destruct (IH (unrequested e c)) as (Hs' & Hse'); try congruence.
    split; congruence.
Qed.

(** C6: the timer callback [on_timeout].  Channel still Attaching: it becomes
    Suspended, the state change emitted carries the attach timeout error, no
    frame is sent, no timer is held, and whatever frames arrive, connection
    changes are reported or timers expire afterwards, nothing more is sent
    and the channel stays Suspended.  Channel still Detaching: it becomes
    Attached again, the state change carries the detach timeout error.  Any
    other state: the callback comes down to [_check_pending_state], and the
    state is left as it is. *)
Theorem pending_state_timer_expiry rt c :
  let c' := on_timeout rt c in
  (state c = ATTACHING ->
     let state_change :=
       {| previous := ATTACHING; current := SUSPENDED; resumed := Some false;
          reason := Some {| message := "Channel attach timed out";
                            status_code := 408; code := 90007 |} |} in
     state c' = SUSPENDED /\
     emissions (emitter c')
       = emissions (emitter c) ++ [(Some "suspended"%string, state_change)] /\
     emissions (internal_state_emitter c')
       = emissions (internal_state_emitter c)
         ++ [(Some "suspended"%string, state_change)] /\
     sent c' = sent c /\
     state_timer c' = None /\
     forall es, sent (run es c') = sent c /\ state (run es c') = SUSPENDED) /\
  (state c = DETACHING ->
     let state_change :=
       {| previous := DETACHING; current := ATTACHED; resumed := Some false;
          reason := Some {| message := "Channel detach timed out";
                            status_code := 408; code := 90007 |} |} in
     state c' = ATTACHED /\
     emissions (emitter c')
       = emissions (emitter c) ++ [(Some "attached"%string, state_change)] /\
     emissions (internal_state_emitter c')
       = emissions (internal_state_emitter c)
         ++ [(Some "attached"%string, state_change)] /\
     sent c' = sent c) /\
  (state c <> ATTACHING -> state c <> DETACHING ->
     c' = _check_pending_state rt (set_state_timer None c) /\
     state c' = state c /\ sent c' = sent c).
Proof.
  cbv zeta. split; [|split].
  - intros E. unfold on_timeout, __timeout_pending_state.
    change (state (set_state_timer None c)) with (state c). rewrite E. simpl.
    assert (Hne : SUSPENDED <> state (set_state_timer None c))
      by (simpl; congruence).
    destruct (notify_state_changes SUSPENDED
                (Some {| message := "Channel attach timed out";
                         status_code := 408; code := 90007 |})
                (Some false) _ Hne)
      as (H1 & H2 & H3 & _ & _ & H4 & _ & H5 & _).
    cbv zeta in *. simpl in H2, H3, H5. rewrite E in H2, H3.
    repeat split; try assumption.
    + rewrite <- H5. apply run_idle; rewrite H1; discriminate.
    + rewrite <- H1 at 2. apply run_idle; rewrite H1; discriminate.
  - intros E. unfold on_timeout, __timeout_pending_state.
    change (state (set_state_timer None c)) with (state c). rewrite E. simpl.
    assert (Hne : ATTACHED <> state (set_state_timer None c))
      by (simpl; congruence).
    destruct (notify_state_changes ATTACHED
                (Some {| message := "Channel detach timed out";
                         status_code := 408; code := 90007 |})
                (Some false) _ Hne)
      as (H1 & H2 & H3 & _ & _ & _ & _ & H5 & _).
    cbv zeta in *. simpl in H2, H3, H5. rewrite E in H2, H3.
    repeat split; assumption.
  - intros H1 H2. destruct (on_timeout_idle rt c H1 H2) as (Ha & Hb).
    split; [exact Ha|]. rewrite Hb. split; reflexivity.
Qed.

Lemma pending_state_timer_expiry_witness :
  let rt := {| connection_state := Connection.CONNECTED;
               connection_manager_state := Connection.CONNECTED;
               realtime_request_timeout := 10000 |} in
  let c := _request_state rt ATTACHING (__init__ "news") in
  state c = ATTACHING /\ state (on_timeout rt c) = SUSPENDED /\
  sent (on_timeout rt c) = sent c.
Proof.
  intros rt c. split; [reflexivity|].
  destruct (proj1 (pending_state_timer_expiry rt c) eq_refl)
    as (H1 & _ & _ & H2 & _).
  split; [exact H1|exact H2].
Defined.

(** *** Invariants along the runs of a channel *)








(** Whatever the enum lookups yield, [attach] and [detach] change the
    channel through [_request_state] and [_notify_state] only. *)
Lemma attach_fst rt c :
  fst (attach rt c) = c \/ fst (attach rt c) = _request_state rt ATTACHING c.
Proof.
  unfold attach. destruct (ChannelState_eqb _ ATTACHED); [now left|].
  destruct (getattrs _) as [allowed|e]; [|now left].
  destruct (negb (Connection.state_in _ _)); [now left|].
  destruct (negb (ChannelState_eqb _ ATTACHING)); [now right|now left].
Qed.

Lemma detach_fst rt c :
  fst (detach rt c) = c \/
  fst (detach rt c) = _notify_state DETACHED None (Some false) c \/
  fst (detach rt c) = _request_state rt DETACHING c.
Proof.
  unfold detach. destruct (getattrs _) as [refused|e]; [|now left].
  destruct (Connection.state_in _ _); [now left|].
  destruct (state_in _ _); [now left|].
  destruct (ChannelState_eqb _ SUSPENDED); [now right; left|].
  destruct (ChannelState_eqb _ FAILED); [now left|].
  destruct (Connection.ConnectionState_eqb _ _); now right; right.
Qed.












(** *** attach and detach *)

Lemma getattrs_attach :
  getattrs ["CONNECTING"; "CONNECTED"; "DISCONNECTED"]%string
  = Raise (AttributeError "ConnectionState" "DISCONNECTED").
Proof. reflexivity. Qed.

Lemma getattrs_detach :
  getattrs ["CLOSING"; "FAILED"]%string
  = Raise (AttributeError "ConnectionState" "FAILED").
Proof. reflexivity. Qed.

(** Unless the channel is Attached, [attach] ends in the [AttributeError] of
    the lookup of [ConnectionState.DISCONNECTED], whatever the connection
    state. *)
Lemma attach_attribute_error rt c :
  state c <> ATTACHED ->
  attach rt c
  = (c, Finished (Raise (AttributeError "ConnectionState" "DISCONNECTED"))).
Proof.
  intros H. unfold attach. apply ChannelState_eqb_neq in H. rewrite H.
  now rewrite getattrs_attach.
Qed.

(** [detach] ends in the [AttributeError] of the lookup of
    [ConnectionState.FAILED], whatever the channel and connection states. *)
Lemma detach_attribute_error rt c :
  detach rt c
  = (c, Finished (Raise (AttributeError "ConnectionState" "FAILED"))).
Proof. reflexivity. Qed.



(** C8: [detach] after its await on the internal state emitter.  Woken with
    a change to Detached it returns; with a change to Attaching it raises
    the "superseded" error, built with the positional arguments 90000 and
    409; with any other change it executes [raise] on the reason the change
    carries, which raises that reason when there is one. *)
Theorem detach_after_await_outcome state_change :
  (current state_change = DETACHED ->
     detach_after_await state_change = Return tt) /\
  (current state_change = ATTACHING ->
     detach_after_await state_change
     = Raise (ExcAbly
         {| message := "Detach request superseded by a subsequent attach request";
            status_code := 90000; code := 409 |})) /\
  (current state_change <> DETACHED -> current state_change <> ATTACHING ->
     detach_after_await state_change = py_raise (reason state_change) /\
     forall e, reason state_change = Some e ->
               detach_after_await state_change = Raise (ExcAbly e)).
Proof.
  unfold detach_after_await. split; [|split].
  - intros ->. reflexivity.
  - intros ->. reflexivity.
  - intros H1 H2. apply ChannelState_eqb_neq in H1, H2. rewrite H1, H2.
    split; [reflexivity|]. intros e ->. reflexivity.
Qed.

Lemma detach_after_await_outcome_witness :
  let timed_out := {| message := "Channel detach timed out";
                      status_code := 408; code := 90007 |} in
  detach_after_await
    {| previous := DETACHING; current := ATTACHED;
       resumed := Some false; reason := Some timed_out |}
  = Raise (ExcAbly timed_out).
Proof.
  intros timed_out.
  apply (proj2 (proj2 (detach_after_await_outcome
                         {| previous := DETACHING; current := ATTACHED;
                            resumed := Some false;
                            reason := Some timed_out |})));
    [discriminate|discriminate|reflexivity].
Defined.

(** *** subscribe *)

(** C10: [subscribe()] with no argument, or with a string alone, raises
    [IndexError] from [args[0]] or [args[1]]; a [ValueError] from the
    argument parsing needs a first argument and, when that is a string, a
    second one. *)
Theorem subscribe_argument_errors :
  (forall rt c,
     subscribe rt [] c
     = (c, Finished (Raise (IndexError "tuple index out of range")))) /\
  (forall rt c event,
     subscribe rt [PyStr event] c
     = (c, Finished (Raise (IndexError "tuple index out of range")))) /\
  (forall args msg,
     subscribe_args args = Raise (ValueError msg) ->
     exists a0 rest,
       args = a0 :: rest /\
       (isinstance_str a0 = true -> exists a1 rest', rest = a1 :: rest')).
Proof.
  split; [|split].
  - reflexivity.
  - reflexivity.
  - intros args msg H. destruct args as [|a0 rest]; [discriminate|].
    exists a0, rest. split; [reflexivity|]. intros Hs.
    destruct rest as [|a1 rest']; [|now exists a1, rest'].
    destruct a0; discriminate.
Qed.

Lemma subscribe_argument_errors_witness :
  (exists a0 rest,
     [PyStr "greeting"; PyNone] = a0 :: rest /\
     (isinstance_str a0 = true -> exists a1 rest', rest = a1 :: rest')) /\
  subscribe connected [PyStr "greeting"] (__init__ "news")
  = (__init__ "news", Finished (Raise (IndexError "tuple index out of range"))).
Proof.
  destruct subscribe_argument_errors as (_ & H2 & H3).
  split.
  - exact (H3 [PyStr "greeting"; PyNone]
              "channel.subscribe called without listener"%string eq_refl).
  - apply H2.
Defined.

End ChannelProperties.

(** ** The connection over its lifetime *)

Module ConnectionLifecycle.
Import Py Connection ConnectionProperties.






(** What a turn of the read loop does to the connection. *)
Lemma ws_read_loop_cases msg c c' :
  ws_read_loop msg c = Return c' ->
  c' = c \/
  exists f r, connected_future c = Some f /\ future_result f c = None /\
              c' = settled f r c.
Proof.
  unfold ws_read_loop, complete. intros H.
  destruct (Z.eqb_spec (action msg) 4) as [E4|N4].
  - assert (E9 : Z.eqb (action msg) 9 = false) by (rewrite E4; reflexivity).
    rewrite E9 in H.
    destruct (connected_future c) as [f|] eqn:Ef.
    + destruct (future_result f c) eqn:Er; simpl in H; [discriminate|].
      injection H as <-. right. exists f, (Return tt). auto.
    + simpl in H. injection H as <-. now left.
  - simpl in H. destruct (Z.eqb (action msg) 9); [|injection H as <-; now left].
    destruct (error msg) as [err|]; [|discriminate].
    destruct (is_False (err_nonfatal err)); [|injection H as <-; now left].
    destruct (connected_future c) as [f|] eqn:Ef;
      [|injection H as <-; now left].
    destruct (future_result f c) eqn:Er; simpl in H; [discriminate|].
    injection H as <-. right. exists f, (Raise (auth_error err)).
    repeat split; assumption.
Qed.







(** X2: a turn of the read loop that does not raise never touches the
    connection state, the transport, the tasks or the future counter; it
    changes the connection only when a handle is outstanding and the frame
    is CONNECTED or a fatal ERROR, and then the handle is cleared.  In
    particular a fatal ERROR leaves the state where [connect] put it. *)
Theorem read_loop_only_settles_the_handle msg c c' :
  ws_read_loop msg c = Return c' ->
  state c' = state c /\ websocket c' = websocket c /\ tasks c' = tasks c /\
  transports c' = transports c /\ next_future c' = next_future c /\
  (connected_future c = None -> c' = c) /\
  (action msg <> 4%Z -> fatal_error_of msg = None -> c' = c) /\
  (c' <> c -> connected_future c' = None).
Proof.
  intros H.
  assert (Hquiet : action msg <> 4%Z -> fatal_error_of msg = None -> c' = c).
  { intros N4 Hnf. unfold ws_read_loop, fatal_error_of in *.
    apply Z.eqb_neq in N4. rewrite N4 in H. simpl in H.
    destruct (Z.eqb (action msg) 9); [|congruence].
    destruct (error msg) as [err|]; [|discriminate].
    destruct (is_False (err_nonfatal err)); [discriminate|congruence]. }
  destruct (ws_read_loop_cases msg c c' H) as [->|(f & r & Hf & _ & ->)].
  - repeat split; auto. intros N. now contradiction N.
  - simpl. repeat split; auto. congruence.
Qed.

Lemma read_loop_only_settles_the_handle_witness :
  state after_failed_attempt = CONNECTING /\
  connected_future after_failed_attempt = None.
Proof.
  destruct (read_loop_only_settles_the_handle fatal_frame
              (connect_impl (fst (connect __init__))) after_failed_attempt
              eq_refl) as (Hs & _ & _ & _ & _ & _ & _ & Hn).
  split; [exact Hs|]. apply Hn. discriminate.
Defined.

Lemma ws_read_loop_no_handle msg c c' :
  connected_future c = None -> ws_read_loop msg c = Return c' -> c' = c.
Proof.
  intros Hf H.
  destruct (ws_read_loop_cases msg c c' H) as [->|(f & r & Hf' & _)];
    congruence.
Qed.

Lemma after_stuck e c :
  state c = CONNECTING -> connected_future c = None -> after e c = c.
Proof.
  intros Hs Hf. destruct e as [|msg]; simpl.
  - now rewrite connect_connecting_no_future.
  - destruct (ws_read_loop msg c) as [c'|e] eqn:E; [|reflexivity].
    now apply (ws_read_loop_no_handle msg c c').
Qed.

(** X3: a connection in state Connecting without a completion handle (what
    a failed attempt leaves behind) is stuck: whatever [connect()] calls and
    frames follow, the connection stays exactly as it is, no transport task
    is spawned, and every such [connect()] returns at once as if it had
    succeeded. *)
Theorem connecting_without_handle_is_stuck c es :
  state c = CONNECTING -> connected_future c = None ->
  fold_left (fun c e => after e c) es c = c /\
  connect (fold_left (fun c e => after e c) es c) = (c, Finished (Return tt)).
Proof.
  intros Hs Hf.
  assert (H : fold_left (fun c e => after e c) es c = c).
  { induction es as [|e es IH]; simpl; [reflexivity|].
    now rewrite after_stuck. }
  rewrite H. split; [reflexivity|].
  now apply connect_connecting_no_future.
Qed.

Lemma connecting_without_handle_is_stuck_witness :
  fold_left (fun c e => after e c)
    [call_connect; received {| action := 4; error := None |}; call_connect]
    after_failed_attempt
  = after_failed_attempt.
Proof.
  exact (proj1 (connecting_without_handle_is_stuck after_failed_attempt
                  [call_connect; received {| action := 4; error := None |};
                   call_connect] eq_refl eq_refl)).
Defined.

(** X4: [close()] does not cancel a pending [connect()].  When [close()] is
    called after [connect()] and before the transport exists, it finishes at
    once with the state Closed and the caller of [connect()] still parked;
    the spawned [connect_impl] then opens the transport all the same, and
    when the CONNECTED frame arrives the caller is woken, returns, and the
    state is set to Connected. *)
Theorem close_does_not_cancel_connect msg c :
  state c <> CONNECTED -> state c <> CONNECTING -> fresh c ->
  websocket c = None -> action msg = 4%Z ->
  (exists c1,
     close (fst (connect c)) = (c1, Finished (Return tt)) /\
     state c1 = CLOSED /\
     connected_future c1 = Some (next_future c) /\
     wake (snd (connect c)) c1 = (c1, None)) /\
  (exists c',
     connect_then_close msg c
       = Return (c', Finished (Return tt), Some (Return tt)) /\
     state c' = CONNECTED /\
     transports c' = S (transports c) /\
     connected_future c' = None).
Proof.
  intros H1 H2 Hfr Hw Ha.
  pose proof (Hfr (next_future c) (Nat.le_refl _)) as Hn.
  unfold future_result in Hn.
  split.
  - rewrite (connect_starts c H1 H2 Hfr). simpl. unfold close. simpl.
    rewrite Hw. eexists. split; [reflexivity|]. simpl.
    repeat split. unfold wake, future_result. simpl. now rewrite Hn.
  - unfold connect_then_close. rewrite (connect_starts c H1 H2 Hfr).
    unfold close. simpl. rewrite Hw.
    rewrite (ws_read_loop_connected msg _ (next_future c) Ha);
      [|reflexivity|exact Hn].
    cbn [bind]. unfold wake, future_result, settled. simpl.
    rewrite Nat.eqb_refl. simpl. eexists. split; [reflexivity|].
    repeat split.
Qed.

Lemma close_does_not_cancel_connect_witness :
  exists c',
    connect_then_close {| action := 4; error := None |} __init__
      = Return (c', Finished (Return tt), Some (Return tt)) /\
    state c' = CONNECTED /\ transports c' = 1 /\ connected_future c' = None.
Proof.
  refine (proj2 (close_does_not_cancel_connect
                   {| action := 4; error := None |} __init__ _ _
                   fresh_init eq_refl eq_refl)); discriminate.
Defined.

(** X5: [close()] by cases.  Without a transport it finishes in the same
    turn with the state Closed; with a transport it parks on the
    transport's [close] with the state Closing, and afterwards records Closed
    if that returned and stays Closing if that raised, the exception going to
    the caller.  Either way the transport reference, the completion handle,
    the futures and the tasks are left as they were. *)
Theorem close_outcome c :
  let c1 := fst (close c) in
  (websocket c = None ->
     snd (close c) = Finished (Return tt) /\ state c1 = CLOSED) /\
  (forall w, websocket c = Some w ->
     snd (close c) = Suspended (await_websocket_close w) /\
     state c1 = CLOSING /\
     state (fst (close_resume (Return tt) c1)) = CLOSED /\
     forall e, close_resume (Raise e) c1 = (c1, Raise e)) /\
  websocket c1 = websocket c /\
  connected_future c1 = connected_future c /\
  done_futures c1 = done_futures c /\
  tasks c1 = tasks c /\ transports c1 = transports c.
Proof.
  cbv zeta. unfold close. simpl.
  destruct (websocket c) as [w|] eqn:E; simpl; (split; [|split]).
  - discriminate.
  - intros w' [= <-]. repeat split.
  - repeat split; assumption.
  - intros _. split; reflexivity.
  - discriminate.
  - repeat split; assumption.
Qed.

Lemma close_outcome_witness :
  snd (close after_failed_attempt) = Suspended (await_websocket_close 0) /\
  state (fst (close after_failed_attempt)) = CLOSING.
Proof.
  destruct (proj1 (proj2 (close_outcome after_failed_attempt)) 0 eq_refl)
    as (H1 & H2 & _).
  split; [exact H1|exact H2].
Defined.

End ConnectionLifecycle.

(** ** The channel over its runs *)

Module ChannelRuns.
Import Py Channel ChannelProperties.

(** *** Flags *)

Lemma land_pow2 f k :
  (0 <= k)%Z ->
  Z.land f (2 ^ k) = if Z.testbit f k then (2 ^ k)%Z else 0%Z.
Proof.
  intros Hk. apply Z.bits_inj'. intros n Hn. rewrite Z.land_spec.
  rewrite Z.pow2_bits_eqb by assumption.
  destruct (Z.eqb_spec k n) as [<-|Hne].
  - destruct (Z.testbit f k); [|now rewrite Z.bits_0].
    now rewrite Z.pow2_bits_true.
  - rewrite andb_false_r. destruct (Z.testbit f k).
    + now rewrite Z.pow2_bits_false.
    + now rewrite Z.bits_0.
Qed.

Lemma has_flag_bit f k :
  (0 <= k)%Z -> has_flag f (Z.shiftl 1 k) = Z.testbit f k.
Proof.
  intros Hk. unfold has_flag. rewrite Z.shiftl_1_l, land_pow2 by assumption.
  destruct (Z.testbit f k); [|reflexivity].
  apply Z.gtb_lt. now apply Z.pow_pos_nonneg.
Qed.

(** X6: [has_flag] against a single-bit flag [1 << k] reads bit [k] of the
    flags, for negative flags too; hence a flag is set in [a | b] exactly
    when it is set in [a] or in [b], it is set in [flags | (1 << k)], and no
    flag is set in 0. *)
Theorem has_flag_reads_one_bit f a b k :
  (0 <= k)%Z ->
  has_flag f (Z.shiftl 1 k) = Z.testbit f k /\
  has_flag (Z.lor a b) (Z.shiftl 1 k)
    = has_flag a (Z.shiftl 1 k) || has_flag b (Z.shiftl 1 k) /\
  has_flag (Z.lor f (Z.shiftl 1 k)) (Z.shiftl 1 k) = true /\
  has_flag 0 (Z.shiftl 1 k) = false.
Proof.
  intros Hk. rewrite !has_flag_bit by assumption. repeat split.
  - apply Z.lor_spec.
  - rewrite Z.lor_spec, Z.shiftl_1_l, Z.pow2_bits_true by assumption.
    apply orb_true_r.
  - apply Z.bits_0.
Qed.

Lemma has_flag_reads_one_bit_witness :
  has_flag (-1) Flag.RESUMED = true /\
  has_flag (Z.lor Flag.HAS_PRESENCE Flag.ATTACH_RESUME) Flag.ATTACH_RESUME
    = has_flag Flag.HAS_PRESENCE Flag.ATTACH_RESUME
      || has_flag Flag.ATTACH_RESUME Flag.ATTACH_RESUME.
Proof.
  split.
  - exact (proj1 (has_flag_reads_one_bit (-1) 0 0 2 ltac:(lia))).
  - exact (proj1 (proj2 (has_flag_reads_one_bit
                           0 Flag.HAS_PRESENCE Flag.ATTACH_RESUME 5
                           ltac:(lia)))).
Defined.

(** *** subscribe and unsubscribe *)

(** Two parsing results of the same shape. *)
Ltac same_outcome :=
  solve [ repeat split; intros;
          repeat match goal with H : exists _, _ |- _ => destruct H end;
          simpl in *;
          first [ discriminate | congruence | eexists; reflexivity ] ].

(** X7: called with arguments, [unsubscribe] parses them as [subscribe]
    does: the same event and listener, an [IndexError] on the same argument
    lists, a [ValueError] on the same argument lists; called without
    arguments it raises nothing and asks for all listeners to be removed,
    where [subscribe] raises [IndexError].  It never changes the channel
    state, sends or emits anything. *)
Theorem unsubscribe_parses_like_subscribe args :
  unsubscribe_args [] = Return (None, None) /\
  (args <> [] ->
     (forall event listener,
        subscribe_args args = Return (event, listener) <->
        unsubscribe_args args = Return (event, Some listener)) /\
     (forall m,
        subscribe_args args = Raise (IndexError m) <->
        unsubscribe_args args = Raise (IndexError m)) /\
     ((exists m, subscribe_args args = Raise (ValueError m)) <->
      (exists m, unsubscribe_args args = Raise (ValueError m)))) /\
  (forall c,
     let c' := fst (unsubscribe args c) in
     state c' = state c /\ sent c' = sent c /\ timers c' = timers c /\
     emitter c' = emitter c /\
     internal_state_emitter c' = internal_state_emitter c /\
     emissions (message_emitter c') = emissions (message_emitter c)).
Proof.
  split; [reflexivity|]. split.
  - intros Hne. destruct args as [|a0 rest]; [congruence|].
    unfold subscribe_args, unsubscribe_args, tuple_get, bind. simpl.
    destruct a0 as [| | |event| |]; simpl; try same_outcome.
    destruct rest as [|a1 rest]; simpl; [same_outcome|].
    destruct (truthy a1); simpl; [|same_outcome].
    destruct (is_callable_or_coroutine a1); simpl; same_outcome.
  - intros c. cbv zeta. unfold unsubscribe.
    destruct (unsubscribe_args args) as [[event listener]|e]; simpl;
      repeat split.
Qed.

Lemma unsubscribe_parses_like_subscribe_witness :
  unsubscribe_args [PyStr "greeting"; PyFunction 7]
  = Return (Some "greeting"%string, Some (PyFunction 7)).
Proof.
  apply (proj1 (proj2 (unsubscribe_parses_like_subscribe
                         [PyStr "greeting"; PyFunction 7]))).
  - discriminate.
  - reflexivity.
Defined.

(** *** Every step is made of four primitive changes *)

Lemma light_refl c : light c c.
Proof. unfold light. repeat split. now left. Qed.

Lemma emit_messages_name ms : forall c,
  name (fold_left
          (fun c m => set_message_emitter
                        (_emit (msg_name m) m (message_emitter c)) c)
          ms c) = name c.
Proof.
  induction ms as [|m ms IH]; intros c; simpl; [reflexivity|].
  now rewrite IH.
Qed.

Lemma store_serial_light msg c : light c (store_serial msg c).
Proof.
  unfold store_serial. destruct (truthy_str _); [|apply light_refl].
  unfold light. simpl. repeat split. now left.
Qed.

Lemma emit_messages_light ms c :
  light c (fold_left
             (fun c m => set_message_emitter
                           (_emit (msg_name m) m (message_emitter c)) c)
             ms c).
Proof.
  destruct (emit_messages_frame ms c) as (Hs & Ha & _ & He & Hi & Ht & Hti & Hse).
  cbv zeta in *. unfold light. rewrite emit_messages_name, He.
  repeat split; auto.
Qed.

Lemma request_state_built rt st c c1 :
  built c c1 -> built c (_request_state rt st c1).
Proof. intros H. unfold _request_state. now apply built_check, built_notify. Qed.

Lemma attach_built rt c c1 : built c c1 -> built c (fst (attach rt c1)).
Proof.
  intros H. destruct (attach_fst rt c1) as [->| ->];
    [assumption|now apply request_state_built].
Qed.

Lemma on_message_built msg c : built c (_on_message msg c).
Proof.
  assert (H1 : built c (store_serial msg c))
    by (eapply built_light; [apply built_refl|apply store_serial_light]).
  unfold _on_message. fold (store_serial msg c).
  destruct (action msg); try assumption.
  - destruct (ChannelState_eqb (state (store_serial msg c)) ATTACHED) eqn:E.
    + destruct (negb _); [|assumption].
      eapply built_light; [exact H1|].
      apply ChannelState_eqb_eq in E.
      unfold light. simpl. repeat split. right.
      eexists. split; [exact E|].
      refine (conj _ (conj _ eq_refl)); simpl; [exact E|reflexivity].
    + destruct (ChannelState_eqb _ ATTACHING); [|assumption].
      now apply built_notify.
  - destruct (ChannelState_eqb _ DETACHING); [|assumption].
    now apply built_notify.
  - eapply built_light; [exact H1|apply emit_messages_light].
Qed.

Lemma step_built c c' : step c c' -> built c c'.
Proof.
  intros Hstep. destruct Hstep.
  - apply attach_built, built_refl.
  - destruct (detach_fst rt c) as [->|[->| ->]].
    + apply built_refl.
    + apply built_notify, built_refl.
    + apply request_state_built, built_refl.
  - unfold subscribe.
    destruct (subscribe_args args) as [[event listener]|e];
      [|apply built_refl].
    apply attach_built. eapply built_light; [apply built_refl|].
    unfold light. simpl. repeat split. now left.
  - apply on_message_built.
  - apply request_state_built, built_refl.
  - apply built_notify, built_refl.
  - apply built_check, built_refl.
  - unfold fire, on_timeout, __timeout_pending_state.
    assert (Hb : built c (set_state_timer None (expire t c)))
      by apply built_expire, built_refl.
    destruct (ChannelState_eqb _ ATTACHING); [now apply built_notify|].
    destruct (ChannelState_eqb _ DETACHING); [now apply built_notify|].
    now apply built_check.
Qed.

(** *** What the primitive changes keep *)

Lemma label_eqb_refl l : label_eqb l l = true.
Proof. destruct l; simpl; [apply String.eqb_refl|reflexivity]. Qed.

Lemma state_label_not_update st change :
  is_update (state_label st, change) = false.
Proof. now destruct st. Qed.

Lemma linked_snoc log : forall from to label change,
  linked from log = Some to ->
  previous change = to -> current change <> to ->
  label = state_label (current change) ->
  linked from (log ++ [(label, change)]) = Some (current change).
Proof.
  induction log as [|[l ch] log IH]; intros from to label change; simpl.
  - intros [= <-] Hp Hc ->. apply ChannelState_eqb_neq in Hc.
    rewrite Hp, ChannelState_eqb_refl, Hc, label_eqb_refl. reflexivity.
  - destruct (_ && _ && _); [|discriminate]. apply IH.
Qed.

Lemma kept_light nm c c' : kept nm c -> light c c' -> kept nm c'.
Proof.
  intros [Kn Kl Kp Ku Kt Ka Kd Ks] (Hn & Hs & Ht & _ & Ha & Hse & Hi & He).
  split; rewrite ?Hn, ?Hs, ?Ht, ?Ha, ?Hse, ?Hi; try assumption.
  - destruct He as [->|(change & _ & _ & _ & ->)]; [assumption|].
    rewrite filter_app. simpl. now rewrite app_nil_r.
  - destruct He as [->|(change & _ & Hp & Hc & ->)]; [assumption|].
    rewrite filter_app, forallb_app, Ku. simpl.
    unfold update_ok. simpl. now rewrite Hp, Hc.
Qed.

Lemma kept_clear nm c : kept nm c -> kept nm (__clear_state_timer c).
Proof.
  intros [Kn Kl Kp Ku Kt Ka Kd Ks].
  destruct (clear_state_timer_frame c)
    as (Hs & Ha & _ & He & Hi & _ & Hse & Hn & Hti).
  cbv zeta in *.
  split; rewrite ?Hn, ?Hs, ?Ha, ?Hse, ?Hi, ?He, ?Hti; try assumption.
  intros H. now contradiction H.
Qed.

Lemma kept_notify nm c st reason resumed :
  kept nm c -> kept nm (_notify_state st reason resumed c).
Proof.
  intros K. destruct (ChannelState_eqb st (state c)) eqn:E.
  - apply ChannelState_eqb_eq in E. rewrite notify_state_same by assumption.
    now apply kept_clear.
  - apply ChannelState_eqb_neq in E. destruct K as [Kn Kl Kp Ku Kt Ka Kd Ks].
    destruct (notify_state_changes st reason resumed c E)
      as (Hs & He & Hi & Ha & _ & Hti & _ & Hse & Hn & _).
    cbv zeta in *.
    split; rewrite ?Hn, ?Hs, ?Ha, ?Hse, ?Hi, ?He, ?Hti; try assumption.
    + eapply linked_snoc; [exact Kl|reflexivity|exact E|reflexivity].
    + rewrite filter_app. simpl.
      fold (state_label st). rewrite state_label_not_update. simpl.
      now rewrite Kp.
    + rewrite filter_app, forallb_app, Ku. simpl.
      fold (state_label st). now rewrite state_label_not_update.
    + intros H. now contradiction H.
    + intros ->. reflexivity.
    + unfold attach_resume_after. intros [-> | ->]; reflexivity.
Qed.

(** What [_check_pending_state] does: nothing, or, for a channel in a
    pending state, one frame of its own. *)
Lemma check_pending_state_sends rt c :
  _check_pending_state rt c = c \/
  (pending (state c) = true /\
   connection_manager_state rt = Connection.CONNECTED /\
   exists m,
     own_frame (name c) m /\
     action m = (if ChannelState_eqb (state c) ATTACHING
                 then ProtocolMessageAction.ATTACH
                 else ProtocolMessageAction.DETACH) /\
     sent (_check_pending_state rt c) = sent c ++ [m] /\
     name (_check_pending_state rt c) = name c /\
     state_timer (_check_pending_state rt c) <> None).
Proof.
  destruct (start_state_timer_frame rt c) as (Hs & _ & _ & _ & _ & _ & Hse & Hn).
  destruct (start_state_timer_arms rt c) as (t & Ht & _).
  cbv zeta in *. unfold _check_pending_state.
  destruct (Connection.ConnectionState_eqb _ _) eqn:Ec; simpl; [|now left].
  apply ConnectionProperties.ConnectionState_eqb_eq in Ec.
  destruct (ChannelState_eqb (state c) ATTACHING) eqn:E1.
  - right. apply ChannelState_eqb_eq in E1. unfold pending. rewrite E1.
    split; [reflexivity|]. split; [exact Ec|].
    exists {| action := ProtocolMessageAction.ATTACH;
              channel := Some (name (__start_state_timer rt c));
              channelSerial :=
                if truthy_str (channel_serial (__start_state_timer rt c))
                then channel_serial (__start_state_timer rt c) else None;
              flags := if attach_resume (__start_state_timer rt c)
                       then Some Flag.ATTACH_RESUME else None;
              error := None;
              messages := [] |}.
    unfold own_frame. simpl. rewrite Hn, Hse, Ht.
    repeat split; auto; discriminate.
  - destruct (ChannelState_eqb (state c) DETACHING) eqn:E2; [|now left].
    right. apply ChannelState_eqb_eq in E2. unfold pending. rewrite E2.
    split; [reflexivity|]. split; [exact Ec|].
    exists {| action := ProtocolMessageAction.DETACH;
              channel := Some (name (__start_state_timer rt c));
              channelSerial := None;
              flags := None;
              error := None;
              messages := [] |}.
    unfold own_frame. simpl. rewrite Hn, Hse, Ht.
    repeat split; auto; discriminate.
Qed.

Lemma kept_check nm c rt : kept nm c -> kept nm (_check_pending_state rt c).
Proof.
  intros K.
  destruct (check_pending_state_sends rt c)
    as [->|(Hp & _ & m & Hm & _ & Hse & Hn & _)]; [assumption|].
  destruct K as [Kn Kl Kp Ku Kt Ka Kd Ks].
  destruct (check_pending_state_frame rt c) as (Hs & Ha & _ & He & Hi & _).
  cbv zeta in *.
  split; rewrite ?Hn, ?Hs, ?Ha, ?Hse, ?Hi, ?He; try assumption.
  - intros _. exact Hp.
  - apply Forall_app. split; [assumption|]. constructor; [|constructor].
    now rewrite <- Kn.
Qed.

Lemma kept_expire nm c t :
  kept nm c -> kept nm (set_state_timer None (expire t c)).
Proof.
  intros [Kn Kl Kp Ku Kt Ka Kd Ks]. split; simpl; try assumption.
  intros H. now contradiction H.
Qed.

Lemma built_kept nm c c' : built c c' -> kept nm c -> kept nm c'.
Proof.
  intros Hb K. induction Hb as [|c1 c2 _ IH Hl|c1 st reason resumed _ IH
                               |c1 rt _ IH|c1 t _ IH].
  - exact K.
  - exact (kept_light nm c1 c2 IH Hl).
  - now apply kept_notify.
  - now apply kept_check.
  - now apply kept_expire.
Qed.

Lemma kept_init nm : kept nm (__init__ nm).
Proof.
  split; simpl; try reflexivity; try discriminate.
  - intros H. now contradiction H.
  - constructor.
Qed.

Lemma reachable_kept nm c : reachable nm c -> kept nm c.
Proof.
  induction 1 as [|c c' _ IH Hstep]; [apply kept_init|].
  exact (built_kept nm c c' (step_built c c' Hstep) IH).
Qed.

(** *** Invariants of the runs *)





Lemma built_sent c c' :
  built c c' -> exists extra, sent c' = sent c ++ extra.
Proof.
  induction 1 as [|c1 c2 _ (x & IH) Hl|c1 st reason resumed _ (x & IH)
                 |c1 rt _ (x & IH)|c1 t _ (x & IH)].
  - exists []. now rewrite app_nil_r.
  - destruct Hl as (_ & _ & _ & _ & _ & Hse & _). exists x. congruence.
  - exists x. now rewrite notify_state_sent.
  - destruct (check_pending_state_sends rt c1)
      as [->|(_ & _ & m & _ & _ & Hse & _)]; [now exists x|].
    exists (x ++ [m]). now rewrite Hse, IH, app_assoc.
  - now exists x.
Qed.

(** X10: along every run, a channel keeps its name, everything it has sent
    is an ATTACH or a DETACH frame bearing that name, without error or
    payload, and a step only ever appends to what was sent. *)
Theorem channel_sends_only_its_own_frames nm c :
  reachable nm c ->
  name c = nm /\
  Forall (own_frame nm) (sent c) /\
  forall c', step c c' -> exists extra, sent c' = sent c ++ extra.
Proof.
  intros Hr. destruct (reachable_kept nm c Hr) as [Kn _ _ _ _ _ _ Ks].
  repeat split; try assumption.
  intros c' Hstep. exact (built_sent c c' (step_built c c' Hstep)).
Qed.

Lemma channel_sends_only_its_own_frames_witness :
  Forall (own_frame "news")
    (sent (_request_state connected ATTACHING (__init__ "news"))).
Proof.
  refine (proj1 (proj2 (channel_sends_only_its_own_frames "news" _ _))).
  apply (reachable_step _ (__init__ "news")); [constructor|].
  apply step_request_state.
Defined.

(** *** Inbound frames *)

Lemma store_serial_serial msg c :
  channel_serial (store_serial msg c)
  = if truthy_str (channelSerial msg) then channelSerial msg
    else channel_serial c.
Proof. unfold store_serial. now destruct (truthy_str _). Qed.

(** X11: [_on_message] stores the frame's serial when it is a non-empty
    string, whatever the action, and otherwise keeps the stored one; the one
    exception is a DETACHED frame received while Detaching, after which the
    stored serial is [None] even if the frame carried one. *)
Theorem on_message_tracks_the_serial msg c :
  let c' := _on_message msg c in
  (action msg = ProtocolMessageAction.DETACHED -> state c = DETACHING ->
     channel_serial c' = None) /\
  (~ (action msg = ProtocolMessageAction.DETACHED /\ state c = DETACHING) ->
     channel_serial c'
     = if truthy_str (channelSerial msg) then channelSerial msg
       else channel_serial c).
Proof.
  cbv zeta. rewrite <- store_serial_serial.
  destruct (store_serial_light msg c) as (_ & Hs & _).
  unfold _on_message. fold (store_serial msg c). rewrite Hs. split.
  - intros Ha E. rewrite Ha, E. simpl.
    assert (Hne : DETACHED <> state (store_serial msg c)) by congruence.
    now destruct (notify_state_changes DETACHED None (Some false) _ Hne)
      as (_ & _ & _ & _ & -> & _).
  - intros Hn. destruct (action msg) eqn:Ea; try reflexivity.
    + destruct (ChannelState_eqb (state c) ATTACHED) eqn:E1.
      * now destruct (negb _).
      * destruct (ChannelState_eqb (state c) ATTACHING) eqn:E2;
          [|reflexivity].
        apply ChannelState_eqb_eq in E2.
        assert (Hne : ATTACHED <> state (store_serial msg c)) by congruence.
        match goal with
        | |- channel_serial (_notify_state _ _ ?r _) = _ =>
            now destruct (notify_state_changes ATTACHED None r _ Hne)
              as (_ & _ & _ & _ & -> & _)
        end.
    + destruct (ChannelState_eqb (state c) DETACHING) eqn:E; [|reflexivity].
      apply ChannelState_eqb_eq in E. exfalso. apply Hn. now split.
    + apply emit_messages_frame.
Qed.

Lemma on_message_tracks_the_serial_witness :
  let c := _request_state connected DETACHING (__init__ "news") in
  channel_serial
    (_on_message
       {| action := ProtocolMessageAction.DETACHED;
          channel := Some "news"%string;
          channelSerial := Some "108:7"%string;
          flags := None; error := None; messages := [] |} c)
  = None.
Proof.
  intros c.
  exact (proj1 (on_message_tracks_the_serial
                  {| action := ProtocolMessageAction.DETACHED;
                     channel := Some "news"%string;
                     channelSerial := Some "108:7"%string;
                     flags := None; error := None; messages := [] |} c)
               eq_refl eq_refl).
Defined.

Lemma emit_messages_emissions ms : forall c,
  let c' := fold_left
              (fun c m => set_message_emitter
                            (_emit (msg_name m) m (message_emitter c)) c)
              ms c in
  emissions (message_emitter c')
    = emissions (message_emitter c) ++ map (fun m => (msg_name m, m)) ms /\
  registered (message_emitter c') = registered (message_emitter c).
Proof.
  induction ms as [|m ms IH]; intros c; cbv zeta; simpl.
  - now rewrite app_nil_r.
  - destruct (IH (set_message_emitter
                    (_emit (msg_name m) m (message_emitter c)) c))
      as (He & Hr).
    cbv zeta in *. rewrite He, Hr. simpl. now rewrite <- app_assoc.
Qed.

(** X12: a MESSAGE frame hands its decoded messages to the message emitter
    one by one, in the order of the frame, each under its own name; the
    registrations, the channel state, the two state emitters and what was
    sent are untouched. *)
Theorem on_message_dispatches_in_order msg c :
  action msg = ProtocolMessageAction.MESSAGE ->
  let c' := _on_message msg c in
  emissions (message_emitter c')
    = emissions (message_emitter c)
      ++ map (fun m => (msg_name m, m)) (messages msg) /\
  registered (message_emitter c') = registered (message_emitter c) /\
  state c' = state c /\ emitter c' = emitter c /\
  internal_state_emitter c' = internal_state_emitter c /\
  sent c' = sent c.
Proof.
  intros Ha. cbv zeta. unfold _on_message. rewrite Ha.
  fold (store_serial msg c).
  destruct (emit_messages_emissions (messages msg) (store_serial msg c))
    as (He & Hr).
  destruct (emit_messages_light (messages msg) (store_serial msg c))
    as (_ & Hs & _ & _ & _ & Hse & Hi & _).
  destruct (emit_messages_frame (messages msg) (store_serial msg c))
    as (_ & _ & _ & Hem & _).
  destruct (store_serial_light msg c) as (_ & Hs' & _ & _ & _ & Hse' & Hi' & _).
  cbv zeta in *.
  assert (Hm : message_emitter (store_serial msg c) = message_emitter c)
    by (unfold store_serial; now destruct (truthy_str _)).
  assert (Hp : emitter (store_serial msg c) = emitter c)
    by (unfold store_serial; now destruct (truthy_str _)).
  rewrite He, Hr, Hm. repeat split; congruence.
Qed.

Lemma on_message_dispatches_in_order_witness :
  let a := {| msg_name := Some "a"%string; msg_data := "1"%string |} in
  let b := {| msg_name := Some "b"%string; msg_data := "2"%string |} in
  emissions (message_emitter
    (_on_message
       {| action := ProtocolMessageAction.MESSAGE;
          channel := Some "news"%string; channelSerial := None;
          flags := None; error := None; messages := [a; b] |}
       (__init__ "news")))
  = [(Some "a"%string, a); (Some "b"%string, b)].
Proof.
  intros a b.
  exact (proj1 (on_message_dispatches_in_order
                  {| action := ProtocolMessageAction.MESSAGE;
                     channel := Some "news"%string; channelSerial := None;
                     flags := None; error := None; messages := [a; b] |}
                  (__init__ "news") eq_refl)).
Defined.

(** X13: an inbound DETACHED frame.  Channel Detaching: it becomes
    Detached, one state change from Detaching to Detached without reason
    goes to both state emitters, and no timer is held.  Any other channel
    state: the state, both state emitters, the timer and what was sent are
    as before. *)
Theorem on_message_detached_frame msg c :
  action msg = ProtocolMessageAction.DETACHED ->
  let c' := _on_message msg c in
  let change := {| previous := DETACHING; current := DETACHED;
                   resumed := Some false; reason := None |} in
  (state c = DETACHING ->
     state c' = DETACHED /\
     emissions (emitter c')
       = emissions (emitter c) ++ [(Some "detached"%string, change)] /\
     emissions (internal_state_emitter c')
       = emissions (internal_state_emitter c)
         ++ [(Some "detached"%string, change)] /\
     state_timer c' = None /\
     attach_resume c' = attach_resume c) /\
  (state c <> DETACHING ->
     state c' = state c /\ emitter c' = emitter c /\
     internal_state_emitter c' = internal_state_emitter c /\
     state_timer c' = state_timer c /\ sent c' = sent c).
Proof.
  intros Ha. cbv zeta. unfold _on_message. rewrite Ha.
  fold (store_serial msg c).
  destruct (store_serial_light msg c) as (_ & Hs & Ht & _ & Har & Hse & Hi & _).
  assert (Hp : emitter (store_serial msg c) = emitter c)
    by (unfold store_serial; now destruct (truthy_str _)).
  rewrite Hs. split.
  - intros E. rewrite E. simpl.
    assert (Hne : DETACHED <> state (store_serial msg c)) by congruence.
    destruct (notify_state_changes DETACHED None (Some false) _ Hne)
      as (H1 & H2 & H3 & H4 & _ & H5 & _).
    cbv zeta in *. rewrite H1, H2, H3, H4, H5, Hs, Hp, Hi, Har, E.
    repeat split; reflexivity.
  - intros E. apply ChannelState_eqb_neq in E. rewrite E.
    repeat split; assumption.
Qed.

Lemma on_message_detached_frame_witness :
  let c := _request_state connected DETACHING (__init__ "news") in
  state (_on_message
           {| action := ProtocolMessageAction.DETACHED;
              channel := Some "news"%string; channelSerial := None;
              flags := None; error := None; messages := [] |} c)
  = DETACHED.
Proof.
  intros c.
  exact (proj1 (proj1 (on_message_detached_frame
                         {| action := ProtocolMessageAction.DETACHED;
                            channel := Some "news"%string;
                            channelSerial := None;
                            flags := None; error := None; messages := [] |}
                         c eq_refl) eq_refl)).
Defined.

(** *** Requests *)

Lemma check_pending_state_active rt c :
  connection_manager_state rt = Connection.CONNECTED ->
  pending (state c) = true ->
  exists m,
    own_frame (name c) m /\
    action m = (if ChannelState_eqb (state c) ATTACHING
                then ProtocolMessageAction.ATTACH
                else ProtocolMessageAction.DETACH) /\
    sent (_check_pending_state rt c) = sent c ++ [m] /\
    state_timer (_check_pending_state rt c)
      = state_timer (__start_state_timer rt c) /\
    timers (_check_pending_state rt c) = timers (__start_state_timer rt c).
Proof.
  intros Hc Hp.
  destruct (start_state_timer_frame rt c) as (Hs & _ & _ & _ & _ & _ & Hse & Hn).
  cbv zeta in *. unfold _check_pending_state. rewrite Hc. simpl.
  unfold pending in Hp.
  destruct (ChannelState_eqb (state c) ATTACHING) eqn:E1.
  - eexists. unfold own_frame, _attach_impl, _send_message. simpl.
    rewrite Hn, Hse. repeat split; auto.
  - destruct (ChannelState_eqb (state c) DETACHING) eqn:E2.
    + eexists. unfold own_frame, _detach_impl, _send_message. simpl.
      rewrite Hn, Hse. repeat split; auto.
    + simpl in Hp. rewrite E1, E2 in Hp. discriminate.
Qed.

(** X14: a state requested while the connection manager is not Connected is
    only recorded: the channel enters the state, nothing is sent and no
    timer is held.  A later [_check_pending_state] gives exactly what the
    request would have given under the later connection state; with the
    connection manager then Connected and the state Attaching or Detaching,
    that is one frame of the channel's own (ATTACH or DETACH) and a held
    timer. *)
Theorem request_state_queues_until_connected rt rt' st c :
  connection_manager_state rt <> Connection.CONNECTED ->
  let c1 := _request_state rt st c in
  sent c1 = sent c /\ state c1 = st /\ state_timer c1 = None /\
  _check_pending_state rt' c1 = _request_state rt' st c /\
  (connection_manager_state rt' = Connection.CONNECTED ->
   pending st = true ->
   exists m,
     own_frame (name c) m /\
     action m = (if ChannelState_eqb st ATTACHING
                 then ProtocolMessageAction.ATTACH
                 else ProtocolMessageAction.DETACH) /\
     sent (_check_pending_state rt' c1) = sent c ++ [m] /\
     state_timer (_check_pending_state rt' c1) <> None).
Proof.
  intros Hn c1.
  assert (E : c1 = _notify_state st None (Some false) c)
    by (unfold c1, _request_state;
        now rewrite check_pending_state_not_connected).
  clearbody c1. subst c1.
  rewrite notify_state_sent, notify_state_state.
  destruct (notify_state_timer st None (Some false) c) as (Ht & _).
  repeat split; try assumption.
  intros Hc Hp.
  destruct (check_pending_state_active rt'
              (_notify_state st None (Some false) c) Hc)
    as (m & Hm & Ha & Hse & Hti & _).
  { now rewrite notify_state_state. }
  rewrite notify_state_state in Ha. rewrite notify_state_sent in Hse.
  assert (Hname : name (_notify_state st None (Some false) c) = name c).
  { destruct (ChannelState_eqb st (state c)) eqn:E.
    - apply ChannelState_eqb_eq in E. rewrite notify_state_same by assumption.
      apply clear_state_timer_frame.
    - apply ChannelState_eqb_neq in E.
      apply (notify_state_changes st None (Some false) c E). }
  rewrite Hname in Hm.
  exists m. split; [exact Hm|]. split; [exact Ha|]. split; [exact Hse|].
  rewrite Hti.
  destruct (start_state_timer_arms rt'
              (_notify_state st None (Some false) c)) as (t & -> & _).
  discriminate.
Qed.

Lemma request_state_queues_until_connected_witness :
  let c1 := _request_state connecting ATTACHING (__init__ "news") in
  sent c1 = [] /\
  _check_pending_state connected c1
  = _request_state connected ATTACHING (__init__ "news").
Proof.
  intros c1.
  destruct (request_state_queues_until_connected
              connecting connected ATTACHING (__init__ "news"))
    as (H1 & _ & _ & H2 & _); [discriminate|].
  split; [exact H1|exact H2].
Defined.

Lemma clear_state_timer_next_timer c :
  next_timer (__clear_state_timer c) = next_timer c.
Proof. unfold __clear_state_timer. now destruct (state_timer c). Qed.

(** X15: requesting the state a pending channel is already in, with the
    connection manager Connected, emits nothing and keeps the state, but
    cancels the held timer, arms a new one, and sends the ATTACH or DETACH
    frame once more. *)
Theorem request_state_repeated_resends rt c :
  connection_manager_state rt = Connection.CONNECTED ->
  pending (state c) = true -> timer_inv c ->
  let c' := _request_state rt (state c) c in
  state c' = state c /\
  emitter c' = emitter c /\
  internal_state_emitter c' = internal_state_emitter c /\
  (exists m,
     own_frame (name c) m /\
     action m = (if ChannelState_eqb (state c) ATTACHING
                 then ProtocolMessageAction.ATTACH
                 else ProtocolMessageAction.DETACH) /\
     sent c' = sent c ++ [m]) /\
  (exists t,
     state_timer c' = Some t /\ timers c' = [t] /\
     timer_id t = next_timer c /\
     timer_timeout t = realtime_request_timeout rt).
Proof.
  intros Hc Hp Hinv. cbv zeta. unfold _request_state.
  rewrite notify_state_same by reflexivity.
  destruct (clear_state_timer_frame c)
    as (Hs & _ & _ & He & Hi & _ & Hse & Hn & Hti).
  cbv zeta in *.
  destruct (check_pending_state_frame rt (__clear_state_timer c))
    as (Hs' & _ & _ & He' & Hi' & _).
  cbv zeta in *.
  destruct (check_pending_state_active rt (__clear_state_timer c) Hc)
    as (m & Hm & Ha & Hsent & Ht & Htis).
  { now rewrite Hs. }
  rewrite Hs in *. rewrite Hn in Hm. rewrite Hse in Hsent.
  repeat split; try congruence.
  - exists m. repeat split; try assumption; apply Hm.
  - destruct (start_state_timer_arms rt (__clear_state_timer c))
      as (t & Ht' & Hnew & _).
    destruct (Hnew Hti) as (Heq & Htl).
    exists t. rewrite Ht, Htis, Htl, clear_state_timer_disarms by assumption.
    rewrite clear_state_timer_next_timer in Heq. subst t.
    repeat split; assumption.
Qed.

Lemma request_state_repeated_resends_witness :
  let c := _request_state connected ATTACHING (__init__ "news") in
  List.length (sent (_request_state connected ATTACHING c)) = 2 /\
  emitter (_request_state connected ATTACHING c) = emitter c.
Proof.
  intros c.
  destruct (request_state_repeated_resends connected c eq_refl eq_refl eq_refl)
    as (_ & He & _ & (m & _ & _ & Hs) & _).
  split; [|exact He].
  change (state c) with ATTACHING in Hs. rewrite Hs. reflexivity.
Defined.

(** *** How a parked attach or detach ends *)

Lemma request_state_change rt st c :
  st <> state c ->
  emissions (internal_state_emitter (_request_state rt st c))
  = emissions (internal_state_emitter c)
    ++ [(state_label st,
         {| previous := state c; current := st;
            resumed := Some false; reason := None |})].
Proof.
  intros Hne. unfold _request_state.
  destruct (check_pending_state_frame rt
              (_notify_state st None (Some false) c))
    as (_ & _ & _ & _ & -> & _).
  apply (notify_state_changes st None (Some false) c Hne).
Qed.

(** X16: what a caller parked in [attach()] is woken with, the channel being
    Attaching.  On an ATTACHED frame: a change for which [attach] returns.
    On expiry of the timer: the change to Suspended, for which [attach]
    raises the attach timeout error (408, 90007).  On a request for
    Detaching (a [detach()] call): the change to Detaching, for which
    [attach] returns as well. *)
Theorem attach_ends rt msg c :
  state c = ATTACHING ->
  let log := emissions (internal_state_emitter c) in
  (action msg = ProtocolMessageAction.ATTACHED ->
   exists change,
     emissions (internal_state_emitter (_on_message msg c))
       = log ++ [(Some "attached"%string, change)] /\
     attach_after_await change = Return tt) /\
  (exists change,
     emissions (internal_state_emitter (on_timeout rt c))
       = log ++ [(Some "suspended"%string, change)] /\
     attach_after_await change
     = Raise (ExcAbly {| message := "Channel attach timed out";
                         status_code := 408; code := 90007 |})) /\
  (exists change,
     emissions (internal_state_emitter (_request_state rt DETACHING c))
       = log ++ [(Some "detaching"%string, change)] /\
     attach_after_await change = Return tt).
Proof.
  intros E. cbv zeta. split; [|split].
  - intros Ha.
    unfold _on_message. rewrite Ha. fold (store_serial msg c).
    destruct (store_serial_light msg c) as (_ & Hs & _ & _ & _ & _ & Hi & _).
    rewrite Hs, E. simpl.
    assert (Hne : ATTACHED <> state (store_serial msg c)) by congruence.
    match goal with
    | |- context [_notify_state ATTACHED None ?r _] =>
        destruct (notify_state_changes ATTACHED None r _ Hne)
          as (_ & _ & H & _)
    end.
    cbv zeta in H. rewrite Hi in H. eexists. split; [exact H|reflexivity].
  - unfold on_timeout, __timeout_pending_state.
    change (state (set_state_timer None c)) with (state c). rewrite E. simpl.
    assert (Hne : SUSPENDED <> state (set_state_timer None c))
      by (simpl; congruence).
    match goal with
    | |- context [_notify_state SUSPENDED ?x ?r _] =>
        destruct (notify_state_changes SUSPENDED x r _ Hne)
          as (_ & _ & H & _)
    end.
    cbv zeta in H. simpl in H. eexists. split; [exact H|reflexivity].
  - rewrite request_state_change by congruence.
    eexists. split; reflexivity.
Qed.

Lemma attach_ends_witness :
  let c := _request_state connected ATTACHING (__init__ "news") in
  exists change,
    emissions (internal_state_emitter (on_timeout connected c))
      = emissions (internal_state_emitter c)
        ++ [(Some "suspended"%string, change)] /\
    attach_after_await change
    = Raise (ExcAbly {| message := "Channel attach timed out";
                        status_code := 408; code := 90007 |}).
Proof.
  intros c.
  exact (proj1 (proj2 (attach_ends connected
                         {| action := ProtocolMessageAction.ATTACHED;
                            channel := None; channelSerial := None;
                            flags := None; error := None; messages := [] |}
                         c eq_refl))).
Defined.

(** X17: what a caller parked in [detach()] is woken with, the channel being
    Detaching.  On a DETACHED frame: the change to Detached, for which
    [detach] returns.  On expiry of the timer: the change back to Attached,
    for which [detach] raises the detach timeout error (408, 90007).  On a
    request for Attaching (an [attach()] call): the change to Attaching, for
    which [detach] raises the "superseded" error. *)
Theorem detach_ends rt msg c :
  state c = DETACHING ->
  let log := emissions (internal_state_emitter c) in
  (action msg = ProtocolMessageAction.DETACHED ->
   exists change,
     emissions (internal_state_emitter (_on_message msg c))
       = log ++ [(Some "detached"%string, change)] /\
     detach_after_await change = Return tt) /\
  (exists change,
     emissions (internal_state_emitter (on_timeout rt c))
       = log ++ [(Some "attached"%string, change)] /\
     state (on_timeout rt c) = ATTACHED /\
     detach_after_await change
     = Raise (ExcAbly {| message := "Channel detach timed out";
                         status_code := 408; code := 90007 |})) /\
  (exists change,
     emissions (internal_state_emitter (_request_state rt ATTACHING c))
       = log ++ [(Some "attaching"%string, change)] /\
     detach_after_await change
     = Raise (ExcAbly
         {| message := "Detach request superseded by a subsequent attach request";
            status_code := 90000; code := 409 |})).
Proof.
  intros E. cbv zeta. split; [|split].
  - intros Ha.
    unfold _on_message. rewrite Ha. fold (store_serial msg c).
    destruct (store_serial_light msg c) as (_ & Hs & _ & _ & _ & _ & Hi & _).
    rewrite Hs, E. simpl.
    assert (Hne : DETACHED <> state (store_serial msg c)) by congruence.
    destruct (notify_state_changes DETACHED None (Some false) _ Hne)
      as (_ & _ & H & _).
    cbv zeta in H. rewrite Hi in H. eexists. split; [exact H|reflexivity].
  - unfold on_timeout, __timeout_pending_state.
    change (state (set_state_timer None c)) with (state c). rewrite E. simpl.
    assert (Hne : ATTACHED <> state (set_state_timer None c))
      by (simpl; congruence).
    match goal with
    | |- context [_notify_state ATTACHED ?x ?r _] =>
        destruct (notify_state_changes ATTACHED x r _ Hne)
          as (Hst & _ & H & _)
    end.
    cbv zeta in H. simpl in H. eexists.
    split; [exact H|]. split; [exact Hst|reflexivity].
  - rewrite request_state_change by congruence.
    eexists. split; reflexivity.
Qed.

Lemma detach_ends_witness :
  let c := _request_state connected DETACHING (__init__ "news") in
  exists change,
    emissions (internal_state_emitter (_request_state connected ATTACHING c))
      = emissions (internal_state_emitter c)
        ++ [(Some "attaching"%string, change)] /\
    detach_after_await change
    = Raise (ExcAbly
        {| message := "Detach request superseded by a subsequent attach request";
           status_code := 90000; code := 409 |}).
Proof.
  intros c.
  exact (proj2 (proj2 (detach_ends connected
                         {| action := ProtocolMessageAction.DETACHED;
                            channel := None; channelSerial := None;
                            flags := None; error := None; messages := [] |}
                         c eq_refl))).
Defined.

(** *** subscribe and the ATTACH frame *)

Lemma notify_state_message_emitter st reason resumed c :
  message_emitter (_notify_state st reason resumed c) = message_emitter c.
Proof.
  destruct (ChannelState_eqb st (state c)) eqn:E.
  - apply ChannelState_eqb_eq in E. rewrite notify_state_same by assumption.
    apply clear_state_timer_frame.
  - apply ChannelState_eqb_neq in E.
    apply (notify_state_changes st reason resumed c E).
Qed.

Lemma attach_message_emitter rt c :
  message_emitter (fst (attach rt c)) = message_emitter c.
Proof.
  destruct (attach_fst rt c) as [->| ->]; [reflexivity|].
  unfold _request_state.
  destruct (check_pending_state_frame rt
              (_notify_state ATTACHING None (Some false) c))
    as (_ & _ & _ & _ & _ & -> & _).
  apply notify_state_message_emitter.
Qed.

(** X18: [subscribe] registers the listener before it calls [attach]: with
    arguments that parse, the listener (a function or coroutine function) is
    appended to the registrations of the message emitter under the parsed
    event, whether [attach] then returns, raises or parks; with arguments
    that do not parse, the channel is left as it was. *)
Theorem subscribe_registers_before_attach rt args c :
  (forall event listener,
     subscribe_args args = Return (event, listener) ->
     is_callable_or_coroutine listener = true /\
     registered (message_emitter (fst (subscribe rt args c)))
       = registered (message_emitter c) ++ [(event, listener)] /\
     emissions (message_emitter (fst (subscribe rt args c)))
       = emissions (message_emitter c)) /\
  (forall e, subscribe_args args = Raise e ->
             subscribe rt args c = (c, Finished (Raise e))).
Proof.
  split.
  - intros event listener H. unfold subscribe. rewrite H.
    rewrite attach_message_emitter. simpl. split; [|split; reflexivity].
    unfold subscribe_args, tuple_get, bind in H.
    destruct args as [|a0 rest]; [discriminate|]. simpl in H.
    destruct a0; simpl in H; try discriminate;
      try (injection H as <- <-; reflexivity).
    destruct rest as [|a1 rest]; [discriminate|]. simpl in H.
    destruct (truthy a1); [|discriminate]. simpl in H.
    destruct (is_callable_or_coroutine a1) eqn:E; [|discriminate].
    simpl in H. now injection H as <- <-.
  - intros e H. unfold subscribe. now rewrite H.
Qed.

Lemma subscribe_registers_before_attach_witness :
  registered (message_emitter
    (fst (subscribe closed [PyStr "greeting"; PyFunction 7] (__init__ "news"))))
  = [(Some "greeting"%string, PyFunction 7)].
Proof.
  exact (proj1 (proj2 (proj1 (subscribe_registers_before_attach
                                closed [PyStr "greeting"; PyFunction 7]
                                (__init__ "news"))
                         (Some "greeting"%string) (PyFunction 7) eq_refl))).
Defined.

(** X19: the frame [_attach_impl] sends is an ATTACH for the channel's name;
    [has_flag] finds ATTACH_RESUME in its flags exactly when the channel's
    resume flag is set; it carries a serial exactly when the stored serial
    is a non-empty string, and then that one.  Nothing but the list of sent
    frames changes. *)
Theorem attach_impl_frame c :
  exists m,
    sent (_attach_impl c) = sent c ++ [m] /\
    action m = ProtocolMessageAction.ATTACH /\
    channel m = Some (name c) /\
    asks_resume m = attach_resume c /\
    (forall s, channelSerial m = Some s <->
               channel_serial c = Some s /\ s <> ""%string) /\
    _attach_impl c = set_sent (sent c ++ [m]) c.
Proof.
  eexists. split; [reflexivity|]. simpl.
  split; [reflexivity|]. split; [reflexivity|]. split; [|split].
  - unfold asks_resume. simpl. now destruct (attach_resume c).
  - intros s. destruct (channel_serial c) as [s'|]; simpl.
    + destruct (String.eqb_spec s' ""); simpl.
      * split; [discriminate|]. intros ([= ->] & Hne). contradiction.
      * split.
        -- intros [= <-]. now split.
        -- intros ([= ->] & _). reflexivity.
    + split; [discriminate|]. intros (H & _). discriminate.
  - reflexivity.
Qed.

End ChannelRuns.
